(** * gator_trace_power: power-event collection of the gator driver

    A shallow embedding of [driver/gator_trace_power.c] (the branch compiled
    when [GATOR_CPU_FREQ_SUPPORT] is set) and the properties of its
    start/stop protocol, its tracepoint probes and its frequency poller. *)

From Stdlib Require Import ZArith List Bool Lia.
From stdpp Require Import base decidable countable gmap list.
Import ListNotations.

Local Open Scope Z_scope.

#[local] Set Warnings "-clear-no-such-hyp".

(** ** Compilation target *)

(** Width of the C type [long] (and [ulong]) on the target. *)
Inductive data_model := ILP32 | LP64.

(** The file distinguishes targets with [#if defined(__arm__)]: [__arm__] is
    the 32-bit ARM port, where [machine_is_omap3_beagle()] is meaningful and
    [long] has 32 bits; every other target only differs by its data model. *)
Inductive target :=
| arm (machine_is_omap3_beagle : bool)
| not_arm (dm : data_model).

Definition long_bits (tgt : target) : Z :=
  match tgt with
  | arm _ => 32
  | not_arm ILP32 => 32
  | not_arm LP64 => 64
  end.

(** [#define implements_wfi() (!machine_is_omap3_beagle())] under [__arm__],
    [#define implements_wfi() false] otherwise. *)
Definition implements_wfi (tgt : target) : bool :=
  match tgt with
  | arm machine_is_omap3_beagle => negb machine_is_omap3_beagle
  | not_arm _ => false
  end.

(** ** C integer arithmetic used by the file *)

Definition UINT_MAX : Z := 2 ^ 32 - 1.

(** Reduction of a mathematical integer into an unsigned [w]-bit type. *)
Definition wrap_unsigned (w z : Z) : Z := z mod 2 ^ w.

(** Reduction into a signed two's-complement [w]-bit type. *)
Definition wrap_signed (w z : Z) : Z :=
  (z + 2 ^ (w - 1)) mod 2 ^ w - 2 ^ (w - 1).

(** [u * 1000L] for [u] of type [unsigned int].  The usual arithmetic
    conversions pick [long] when it can hold every [unsigned int] (64-bit
    [long]) and [unsigned long] otherwise (32-bit [long]); the product is
    computed in that type and then passed on as a 64-bit value. *)
Definition mul_1000L (tgt : target) (u : Z) : Z :=
  if UINT_MAX <? 2 ^ (long_bits tgt - 1)
  then wrap_signed (long_bits tgt) (u * 1000)
  else wrap_unsigned (long_bits tgt) (wrap_unsigned (long_bits tgt) u * 1000).

(** ** Tracepoints and the calls the file makes to its collaborators *)

Inductive tracepoint := cpu_frequency | gpu_frequency | cpu_idle.

Global Instance tracepoint_eq_dec : EqDecision tracepoint.
Proof. solve_decision. Defined.

Definition tracepoint_code (t : tracepoint) : nat :=
  match t with cpu_frequency => 0 | gpu_frequency => 1 | cpu_idle => 2 end%nat.

Definition tracepoint_of_code (n : nat) : tracepoint :=
  match n with 0%nat => cpu_frequency | 1%nat => gpu_frequency | _ => cpu_idle end.

Global Instance tracepoint_countable : Countable tracepoint.
Proof.
  refine (inj_countable' tracepoint_code tracepoint_of_code _).
  intros t; destruct t; reflexivity.
Defined.

(** Calls leaving the file, in program order: samples handed to the
    marshalling layer, requests to the tracepoint layer (with the value the
    request returned) and the error report of a failed start. *)
Inductive call :=
| marshal_event_single64 (core key value : Z)
| marshal_event_single (core key value : Z)
| marshal_idle (core st : Z)
| GATOR_REGISTER_TRACE_call (t : tracepoint) (ret : Z)
| GATOR_UNREGISTER_TRACE_call (t : tracepoint)
| pr_err_failed_to_activate.

Global Instance call_eq_dec : EqDecision call.
Proof. solve_decision. Defined.

(** ** What the kernel and the rest of the driver answer *)

Record environment := {
  lcpu_to_pcpu : Z -> Z;
  get_physical_cpu : Z;
  get_logical_cpu : Z;
  cpu_present_mask : list Z;          (* order of for_each_present_cpu *)
  cpu_online : Z -> bool;
  cpufreq_cpu_get : Z -> option Z;    (* policy->cur of a non-NULL policy *)
  cpufreq_quick_get : Z -> Z;
  jiffies : Z;
  nr_cpu_ids : Z;
  msecs_to_jiffies : Z -> Z;
  register_trace : tracepoint -> Z;   (* 0 on success *)
  gator_events_get_key : nat -> Z     (* value returned by the n-th call *)
}.

(** ** Program state *)

Definition POWER_CPU_FREQ : nat := 0.
Definition POWER_TOTAL : nat := 1.

Record state := {
  idle_prev_state : gmap Z Z;         (* DEFINE_PER_CPU(ulong, idle_prev_state) *)
  power_cpu_enabled : list Z;         (* ulong power_cpu_enabled[POWER_TOTAL] *)
  power_cpu_key : list Z;             (* ulong power_cpu_key[POWER_TOTAL] *)
  power_gpu_enabled : Z;
  power_gpu_key : Z;
  power_cpu_cores : Z;
  freq_work : bool;                   (* the delayed work is queued *)
  freq_wake_up_timer : option Z;      (* expiry of the timer when pending *)
  probes : gset tracepoint;           (* probes attached to the tracepoint layer *)
  keys_drawn : nat                    (* calls made to gator_events_get_key *)
}.

(** Statics are zero when the module is loaded. *)
Definition module_load : state :=
  {| idle_prev_state := ∅;
     power_cpu_enabled := replicate POWER_TOTAL 0;
     power_cpu_key := replicate POWER_TOTAL 0;
     power_gpu_enabled := 0;
     power_gpu_key := 0;
     power_cpu_cores := 0;
     freq_work := false;
     freq_wake_up_timer := None;
     probes := ∅;
     keys_drawn := 0 |}.

(** [a[i]] for a static array of [ulong]. *)
Definition idx (a : list Z) (i : nat) : Z := default 0 (a !! i).
Global Arguments idx : simpl never.

(** The tracepoint layer attaching and detaching a probe. *)
Definition attach (t : tracepoint) (ps : gset tracepoint) : gset tracepoint :=
  {[t]} ∪ ps.
Definition detach (t : tracepoint) (ps : gset tracepoint) : gset tracepoint :=
  ps ∖ {[t]}.
Global Arguments attach : simpl never.
Global Arguments detach : simpl never.

(** [per_cpu(idle_prev_state, cpu)] as an rvalue. *)
Definition per_cpu_idle_prev_state (s : state) (cpu : Z) : Z :=
  default 0 (idle_prev_state s !! cpu).

Definition set_idle_prev_state (cpu v : Z) (s : state) : state :=
  {| idle_prev_state := <[cpu := v]> (idle_prev_state s);
     power_cpu_enabled := power_cpu_enabled s;
     power_cpu_key := power_cpu_key s;
     power_gpu_enabled := power_gpu_enabled s;
     power_gpu_key := power_gpu_key s;
     power_cpu_cores := power_cpu_cores s;
     freq_work := freq_work s;
     freq_wake_up_timer := freq_wake_up_timer s;
     probes := probes s;
     keys_drawn := keys_drawn s |}.

Definition set_power_cpu_enabled (i : nat) (v : Z) (s : state) : state :=
  {| idle_prev_state := idle_prev_state s;
     power_cpu_enabled := <[i := v]> (power_cpu_enabled s);
     power_cpu_key := power_cpu_key s;
     power_gpu_enabled := power_gpu_enabled s;
     power_gpu_key := power_gpu_key s;
     power_cpu_cores := power_cpu_cores s;
     freq_work := freq_work s;
     freq_wake_up_timer := freq_wake_up_timer s;
     probes := probes s;
     keys_drawn := keys_drawn s |}.

Definition set_power_cpu_key (i : nat) (v : Z) (s : state) : state :=
  {| idle_prev_state := idle_prev_state s;
     power_cpu_enabled := power_cpu_enabled s;
     power_cpu_key := <[i := v]> (power_cpu_key s);
     power_gpu_enabled := power_gpu_enabled s;
     power_gpu_key := power_gpu_key s;
     power_cpu_cores := power_cpu_cores s;
     freq_work := freq_work s;
     freq_wake_up_timer := freq_wake_up_timer s;
     probes := probes s;
     keys_drawn := keys_drawn s |}.

Definition set_power_gpu_enabled (v : Z) (s : state) : state :=
  {| idle_prev_state := idle_prev_state s;
     power_cpu_enabled := power_cpu_enabled s;
     power_cpu_key := power_cpu_key s;
     power_gpu_enabled := v;
     power_gpu_key := power_gpu_key s;
     power_cpu_cores := power_cpu_cores s;
     freq_work := freq_work s;
     freq_wake_up_timer := freq_wake_up_timer s;
     probes := probes s;
     keys_drawn := keys_drawn s |}.

Definition set_power_cpu_cores (v : Z) (s : state) : state :=
  {| idle_prev_state := idle_prev_state s;
     power_cpu_enabled := power_cpu_enabled s;
     power_cpu_key := power_cpu_key s;
     power_gpu_enabled := power_gpu_enabled s;
     power_gpu_key := power_gpu_key s;
     power_cpu_cores := v;
     freq_work := freq_work s;
     freq_wake_up_timer := freq_wake_up_timer s;
     probes := probes s;
     keys_drawn := keys_drawn s |}.

Definition set_freq_work (v : bool) (s : state) : state :=
  {| idle_prev_state := idle_prev_state s;
     power_cpu_enabled := power_cpu_enabled s;
     power_cpu_key := power_cpu_key s;
     power_gpu_enabled := power_gpu_enabled s;
     power_gpu_key := power_gpu_key s;
     power_cpu_cores := power_cpu_cores s;
     freq_work := v;
     freq_wake_up_timer := freq_wake_up_timer s;
     probes := probes s;
     keys_drawn := keys_drawn s |}.

Definition set_freq_wake_up_timer (v : option Z) (s : state) : state :=
  {| idle_prev_state := idle_prev_state s;
     power_cpu_enabled := power_cpu_enabled s;
     power_cpu_key := power_cpu_key s;
     power_gpu_enabled := power_gpu_enabled s;
     power_gpu_key := power_gpu_key s;
     power_cpu_cores := power_cpu_cores s;
     freq_work := freq_work s;
     freq_wake_up_timer := v;
     probes := probes s;
     keys_drawn := keys_drawn s |}.

Definition set_probes (v : gset tracepoint) (s : state) : state :=
  {| idle_prev_state := idle_prev_state s;
     power_cpu_enabled := power_cpu_enabled s;
     power_cpu_key := power_cpu_key s;
     power_gpu_enabled := power_gpu_enabled s;
     power_gpu_key := power_gpu_key s;
     power_cpu_cores := power_cpu_cores s;
     freq_work := freq_work s;
     freq_wake_up_timer := freq_wake_up_timer s;
     probes := v;
     keys_drawn := keys_drawn s |}.

Definition set_keys_drawn (v : nat) (s : state) : state :=
  {| idle_prev_state := idle_prev_state s;
     power_cpu_enabled := power_cpu_enabled s;
     power_cpu_key := power_cpu_key s;
     power_gpu_enabled := power_gpu_enabled s;
     power_gpu_key := power_gpu_key s;
     power_cpu_cores := power_cpu_cores s;
     freq_work := freq_work s;
     freq_wake_up_timer := freq_wake_up_timer s;
     probes := probes s;
     keys_drawn := v |}.

(** ** A state-and-output monad for the C functions *)

Definition M (A : Type) : Type := state -> A * state * list call.

Definition ret {A} (a : A) : M A := fun s => (a, s, []).

Definition bind {A B} (m : M A) (f : A -> M B) : M B :=
  fun s =>
    let '(a, s1, o1) := m s in
    let '(b, s2, o2) := f a s1 in
    (b, s2, o1 ++ o2).

Definition get {A} (f : state -> A) : M A := fun s => (f s, s, []).
Definition modify (f : state -> state) : M unit := fun s => (tt, f s, []).
Definition emit (c : call) : M unit := fun s => (tt, s, [c]).

Declare Scope c_scope.
Delimit Scope c_scope with C.
Notation "x <- m ;; k" := (bind m (fun x => k))
  (at level 20, m at level 99, k at level 200) : c_scope.
Notation "m ;; k" := (bind m (fun _ => k))
  (at level 100, k at level 200, right associativity) : c_scope.
Local Open Scope c_scope.

(** Truth value of a C scalar used as a condition. *)
Definition nonzero (c : Z) : bool := negb (c =? 0).
Global Arguments nonzero : simpl never.

(** [if (c) body] without an [else]. *)
Definition when (c : bool) (body : M unit) : M unit :=
  if c then body else ret tt.

(** [for (i = 0; i < n; i++) body(i)] and [for_each_..._cpu(cpu) body(cpu)]. *)
Fixpoint for_each {A} (l : list A) (body : A -> M unit) : M unit :=
  match l with
  | [] => ret tt
  | x :: l' => body x ;; for_each l' body
  end.

Definition result_value {A} (r : A * state * list call) : A := fst (fst r).
Definition result_state {A} (r : A * state * list call) : state := snd (fst r).
Definition result_calls {A} (r : A * state * list call) : list call := snd r.

(** ** The functions of the file *)

Section Driver.

Context (tgt : target) (k : environment).

(** [GATOR_REGISTER_TRACE(t)]: the tracepoint layer attaches the probe when it
    returns 0. *)
Definition GATOR_REGISTER_TRACE (t : tracepoint) : M Z :=
  let r := register_trace k t in
  when (negb (nonzero r)) (ps <- get probes ;; modify (set_probes (attach t ps))) ;;
  emit (GATOR_REGISTER_TRACE_call t r) ;;
  ret r.

Definition GATOR_UNREGISTER_TRACE (t : tracepoint) : M unit :=
  ps <- get probes ;;
  modify (set_probes (detach t ps)) ;;
  emit (GATOR_UNREGISTER_TRACE_call t).

(** [GATOR_DEFINE_PROBE(cpu_frequency, TP_PROTO(unsigned int frequency, unsigned int cpu))] *)
Definition probe_cpu_frequency (frequency cpu : Z) : M unit :=
  let cpu := lcpu_to_pcpu k cpu in
  key <- get (fun s => idx (power_cpu_key s) POWER_CPU_FREQ) ;;
  emit (marshal_event_single64 cpu key (mul_1000L tgt frequency)).

(** [GATOR_DEFINE_PROBE(gpu_frequency, TP_PROTO(unsigned int frequency))] *)
Definition probe_gpu_frequency (frequency : Z) : M unit :=
  let pcpu := get_physical_cpu k in
  key <- get power_gpu_key ;;
  emit (marshal_event_single64 pcpu key (mul_1000L tgt frequency)).

(** [GATOR_DEFINE_PROBE(cpu_idle, TP_PROTO(unsigned int state, unsigned int cpu))] *)
Definition probe_cpu_idle (st cpu : Z) : M unit :=
  let cpu := lcpu_to_pcpu k cpu in
  prev <- get (fun s => per_cpu_idle_prev_state s cpu) ;;
  if st =? prev then ret tt
  else
    when (implements_wfi tgt) (emit (marshal_idle cpu st)) ;;
    modify (set_idle_prev_state cpu st).

Definition gator_trace_power_online : M unit :=
  let pcpu := get_physical_cpu k in
  let lcpu := get_logical_cpu k in
  en <- get (fun s => idx (power_cpu_enabled s) POWER_CPU_FREQ) ;;
  when (nonzero en)
    (key <- get (fun s => idx (power_cpu_key s) POWER_CPU_FREQ) ;;
     emit (marshal_event_single64 pcpu key (mul_1000L tgt (cpufreq_quick_get k lcpu)))).

Definition gator_trace_power_offline : M unit :=
  let cpu := get_physical_cpu k in
  en <- get (fun s => idx (power_cpu_enabled s) POWER_CPU_FREQ) ;;
  when (nonzero en)
    (key <- get (fun s => idx (power_cpu_key s) POWER_CPU_FREQ) ;;
     emit (marshal_event_single cpu key 0)).

(** [mod_timer(&freq_wake_up_timer, expires)] *)
Definition mod_timer (expires : Z) : M unit :=
  modify (set_freq_wake_up_timer (Some expires)).

(** [del_timer_sync(&freq_wake_up_timer)] *)
Definition del_timer_sync : M unit :=
  modify (set_freq_wake_up_timer None).

(** [schedule_delayed_work(&freq_work, 0)]: queues the work unless it is
    already queued. *)
Definition schedule_delayed_work : M unit :=
  modify (set_freq_work true).

(** [setup_deferrable_timer_on_stack(&freq_wake_up_timer, freq_wake_up_handler, 0)]
    initialises the timer; an initialised timer is not pending. *)
Definition setup_deferrable_timer_on_stack : M unit :=
  modify (set_freq_wake_up_timer None).

(** Body of the loop of [wq_freq_handler]. *)
Definition wq_freq_handler_body (cpu : Z) : M unit :=
  if cpu_online k cpu then
    match cpufreq_cpu_get k cpu with
    | Some cur =>
        key <- get (fun s => idx (power_cpu_key s) POWER_CPU_FREQ) ;;
        emit (marshal_event_single64 cpu key (mul_1000L tgt cur))
    | None => ret tt
    end
  else
    key <- get (fun s => idx (power_cpu_key s) POWER_CPU_FREQ) ;;
    emit (marshal_event_single cpu key 0).

Definition wq_freq_handler : M unit :=
  for_each (cpu_present_mask k) wq_freq_handler_body ;;
  mod_timer (wrap_unsigned (long_bits tgt) (jiffies k + msecs_to_jiffies k 500)).

Definition freq_wake_up_handler : M unit :=
  schedule_delayed_work.

(** The three exit labels of [gator_trace_power_start]; each falls through to
    the next one. *)
Definition fail_cpu_frequency_exit : M Z :=
  emit pr_err_failed_to_activate ;;
  ret (-1).

Definition fail_gpufreq_set_exit : M Z :=
  en <- get (fun s => idx (power_cpu_enabled s) POWER_CPU_FREQ) ;;
  when (nonzero en) (GATOR_UNREGISTER_TRACE cpu_frequency) ;;
  fail_cpu_frequency_exit.

Definition fail_cpu_idle_exit : M Z :=
  en <- get power_gpu_enabled ;;
  when (nonzero en) (GATOR_UNREGISTER_TRACE gpu_frequency) ;;
  fail_gpufreq_set_exit.

Definition gator_trace_power_start : M Z :=
  cpu_en <- get (fun s => idx (power_cpu_enabled s) POWER_CPU_FREQ) ;;
  r1 <- (if nonzero cpu_en then GATOR_REGISTER_TRACE cpu_frequency else ret 0) ;;
  if nonzero r1 then fail_cpu_frequency_exit else
  gpu_en <- get power_gpu_enabled ;;
  r2 <- (if nonzero gpu_en then GATOR_REGISTER_TRACE gpu_frequency else ret 0) ;;
  if nonzero r2 then fail_gpufreq_set_exit else
  r3 <- GATOR_REGISTER_TRACE cpu_idle ;;
  if nonzero r3 then fail_cpu_idle_exit else
  schedule_delayed_work ;;
  setup_deferrable_timer_on_stack ;;
  for_each (cpu_present_mask k) (fun cpu => modify (set_idle_prev_state cpu 0)) ;;
  ret 0.

Definition gator_trace_power_stop : M unit :=
  cpu_en <- get (fun s => idx (power_cpu_enabled s) POWER_CPU_FREQ) ;;
  when (nonzero cpu_en) (GATOR_UNREGISTER_TRACE cpu_frequency) ;;
  gpu_en <- get power_gpu_enabled ;;
  when (nonzero gpu_en) (GATOR_UNREGISTER_TRACE gpu_frequency) ;;
  GATOR_UNREGISTER_TRACE cpu_idle ;;
  del_timer_sync ;;
  for_each (seq 0 POWER_TOTAL) (fun i => modify (set_power_cpu_enabled i 0)).

Definition gator_trace_power_init : M unit :=
  modify (set_power_cpu_cores (nr_cpu_ids k)) ;;
  for_each (seq 0 POWER_TOTAL) (fun i =>
    modify (set_power_cpu_enabled i 0) ;;
    n <- get keys_drawn ;;
    modify (set_keys_drawn (S n)) ;;
    modify (set_power_cpu_key i (gator_events_get_key k n))).

End Driver.

(** ** The subsystem driven by its environment

    The tracepoint layer runs a probe only while it is attached, the timer
    wheel runs [freq_wake_up_handler] when the pending timer expires, the
    workqueue runs [wq_freq_handler] when the work is queued, gatorfs writes
    the two [enabled] files created by [gator_trace_power_create_files], and
    the driver core calls init, start, stop and the hotplug notifications.
    Each event runs to completion before the next one. *)

Inductive event :=
| trace_cpu_frequency (frequency cpu : Z)
| trace_gpu_frequency (frequency : Z)
| trace_cpu_idle (st cpu : Z)
| timer_expires
| work_runs
| write_power_cpu_enabled (v : Z)
| write_power_gpu_enabled (v : Z)
| call_init
| call_start
| call_stop
| call_online
| call_offline.

Definition finish {A} (r : A * state * list call) : option (state * list call) :=
  Some (result_state r, result_calls r).

Definition step (tgt : target) (k : environment) (e : event) (s : state)
  : option (state * list call) :=
  match e with
  | trace_cpu_frequency frequency cpu =>
      if decide (cpu_frequency ∈ probes s)
      then finish (probe_cpu_frequency tgt k frequency cpu s) else None
  | trace_gpu_frequency frequency =>
      if decide (gpu_frequency ∈ probes s)
      then finish (probe_gpu_frequency tgt k frequency s) else None
  | trace_cpu_idle st cpu =>
      if decide (cpu_idle ∈ probes s)
      then finish (probe_cpu_idle tgt k st cpu s) else None
  | timer_expires =>
      match freq_wake_up_timer s with
      | Some _ => finish (freq_wake_up_handler (set_freq_wake_up_timer None s))
      | None => None
      end
  | work_runs =>
      if freq_work s
      then finish (wq_freq_handler tgt k (set_freq_work false s)) else None
  | write_power_cpu_enabled v =>
      Some (set_power_cpu_enabled POWER_CPU_FREQ v s, [])
  | write_power_gpu_enabled v =>
      Some (set_power_gpu_enabled v s, [])
  | call_init => finish (gator_trace_power_init k s)
  | call_start => finish (gator_trace_power_start k s)
  | call_stop => finish (gator_trace_power_stop s)
  | call_online => finish (gator_trace_power_online tgt k s)
  | call_offline => finish (gator_trace_power_offline k s)
  end.

(** A schedule is run event by event; it is refused as soon as one of its
    events cannot happen in the state reached. *)
Fixpoint run (tgt : target) (k : environment) (es : list event) (s : state)
  : option (state * list call) :=
  match es with
  | [] => Some (s, [])
  | e :: es' =>
      match step tgt k e s with
      | Some (s1, o1) =>
          match run tgt k es' s1 with
          | Some (s2, o2) => Some (s2, o1 ++ o2)
          | None => None
          end
      | None => None
      end
  end.

(** A four-core machine used for the concrete runs below: CPUs 0 and 1 are
    online with a frequency policy, CPU 2 is online without one, CPU 3 is
    offline; logical CPU [n] is physical CPU [3 - n]. *)
Definition quad_core : environment :=
  {| lcpu_to_pcpu := fun cpu => 3 - cpu;
     get_physical_cpu := 3;
     get_logical_cpu := 0;
     cpu_present_mask := [0; 1; 2; 3];
     cpu_online := fun cpu => cpu <? 3;
     cpufreq_cpu_get := fun cpu => if cpu <? 2 then Some (1200000 + cpu) else None;
     cpufreq_quick_get := fun cpu => if cpu <? 2 then 1200000 + cpu else 0;
     jiffies := 1000;
     nr_cpu_ids := 4;
     msecs_to_jiffies := fun ms => ms / 10;
     register_trace := fun _ => 0;
     gator_events_get_key := fun n => 3 + 2 * Z.of_nat n |}.

(** ** Specification-level vocabulary *)

(** The transitions of a sequence of idle-state observations, as the
    specification words them: an observation counts when it differs from the
    one before it ([prev] for the first). *)
Fixpoint transitions (prev : Z) (obs : list Z) : list Z :=
  match obs with
  | [] => []
  | st :: obs' =>
      if decide (st = prev) then transitions st obs' else st :: transitions st obs'
  end.

(** A run of idle observations delivered for one logical CPU. *)
Definition observe_all (tgt : target) (k : environment) (obs : list Z) (cpu : Z)
  : M unit :=
  for_each obs (fun st => probe_cpu_idle tgt k st cpu).

Definition is_marshal_idle (c : call) : bool :=
  match c with marshal_idle _ _ => true | _ => false end.

(** The order in which start asks for its three hooks. *)
Definition registration_order : list tracepoint :=
  [cpu_frequency; gpu_frequency; cpu_idle].

(** Whether start asks for a hook in state [s]: the two frequency hooks are
    gated by their enabled flag, the idle hook is always wanted. *)
Definition wanted (s : state) (t : tracepoint) : bool :=
  match t with
  | cpu_frequency => nonzero (idx (power_cpu_enabled s) POWER_CPU_FREQ)
  | gpu_frequency => nonzero (power_gpu_enabled s)
  | cpu_idle => true
  end.
Global Arguments wanted : simpl never.

(** Asking for the hooks [ts] in order until the tracepoint layer refuses one:
    the hooks attached so far, and the refused hook if any. *)
Fixpoint register_until_refused (k : environment) (ts : list tracepoint)
  : list tracepoint * option tracepoint :=
  match ts with
  | [] => ([], None)
  | t :: ts' =>
      if nonzero (register_trace k t)
      then ([], Some t)
      else (t :: fst (register_until_refused k ts'), snd (register_until_refused k ts'))
  end.

Definition registered_ok (t : tracepoint) : call := GATOR_REGISTER_TRACE_call t 0.

(** A tracepoint layer that refuses exactly the hook [t] (with [-EBUSY]). *)
Definition refusing (t : tracepoint) (k : environment) : environment :=
  {| lcpu_to_pcpu := lcpu_to_pcpu k;
     get_physical_cpu := get_physical_cpu k;
     get_logical_cpu := get_logical_cpu k;
     cpu_present_mask := cpu_present_mask k;
     cpu_online := cpu_online k;
     cpufreq_cpu_get := cpufreq_cpu_get k;
     cpufreq_quick_get := cpufreq_quick_get k;
     jiffies := jiffies k;
     nr_cpu_ids := nr_cpu_ids k;
     msecs_to_jiffies := msecs_to_jiffies k;
     register_trace := fun t' => if decide (t' = t) then -16 else 0;
     gator_events_get_key := gator_events_get_key k |}.

(** The state in which the daemon has switched both frequency classes on
    after initialisation. *)
Definition both_enabled : state :=
  set_power_gpu_enabled 1
    (set_power_cpu_enabled POWER_CPU_FREQ 1
       (result_state (gator_trace_power_init quad_core module_load))).

(** What one pass of the poller hands to the marshalling layer for one CPU,
    as the specification words it. *)
Definition cycle_sample (tgt : target) (k : environment) (key cpu : Z) : list call :=
  if cpu_online k cpu then
    match cpufreq_cpu_get k cpu with
    | Some cur => [marshal_event_single64 cpu key (mul_1000L tgt cur)]
    | None => []
    end
  else [marshal_event_single cpu key 0].

(** The CPU a sample is about. *)
Definition core_of (c : call) : option Z :=
  match c with
  | marshal_event_single64 core _ _ => Some core
  | marshal_event_single core _ _ => Some core
  | marshal_idle core _ => Some core
  | _ => None
  end.

Definition about (cpu : Z) (c : call) : bool :=
  bool_decide (core_of c = Some cpu).

(** One turn of the poller: the workqueue runs the queued work, then the
    wake-up timer armed by that pass expires. *)
Definition poller_turn : list event := [work_runs; timer_expires].

Fixpoint poller_turns (n : nat) : list event :=
  match n with
  | O => []
  | S n' => poller_turn ++ poller_turns n'
  end.

Definition no_idle (out : list call) : Prop :=
  Forall (fun c => is_marshal_idle c = false) out.

(** ** The gatorfs files

    [gator_trace_power_create_files] only hands the addresses of the four
    statics to gatorfs; it is modelled by the requests it makes, given which
    directories gatorfs manages to create. *)

(** [for_each_online_cpu]: the kernel keeps the online CPUs among the present
    ones and walks both masks in increasing order. *)
Definition cpu_online_mask (k : environment) : list Z :=
  List.filter (cpu_online k) (cpu_present_mask k).

Inductive gatorfs_dir := Linux_power_cpu_freq | Linux_power_gpu_freq.

Inductive gatorfs_file := file_enabled | file_key.

(** The statics whose address is handed to gatorfs. *)
Inductive exported :=
| var_power_cpu_enabled (i : nat)
| var_power_cpu_key (i : nat)
| var_power_gpu_enabled
| var_power_gpu_key.

Inductive gatorfs_call :=
| gatorfs_mkdir (dir : gatorfs_dir) (created : bool)
| gatorfs_create_ulong (dir : gatorfs_dir) (name : gatorfs_file) (v : exported)
| gatorfs_create_ro_ulong (dir : gatorfs_dir) (name : gatorfs_file) (v : exported).

Global Instance gatorfs_dir_eq_dec : EqDecision gatorfs_dir.
Proof. solve_decision. Defined.

Global Instance gatorfs_file_eq_dec : EqDecision gatorfs_file.
Proof. solve_decision. Defined.

Global Instance exported_eq_dec : EqDecision exported.
Proof. solve_decision. Defined.

Global Instance gatorfs_call_eq_dec : EqDecision gatorfs_call.
Proof. solve_decision. Defined.

(** The loop over the online CPUs, left at the first nonzero
    [cpufreq_quick_get]. *)
Definition found_nonzero_freq (k : environment) : bool :=
  existsb (fun cpu => 0 <? cpufreq_quick_get k cpu) (cpu_online_mask k).

(** The second half of [gator_trace_power_create_files], from the comment
    [gpu_frequency] on; [done] are the requests made before it. *)
Definition create_gpu_files (mkdir : gatorfs_dir -> bool) (done : list gatorfs_call)
  : Z * list gatorfs_call :=
  if mkdir Linux_power_gpu_freq then
    (0, done ++ [gatorfs_mkdir Linux_power_gpu_freq true;
                 gatorfs_create_ulong Linux_power_gpu_freq file_enabled
                   var_power_gpu_enabled;
                 gatorfs_create_ro_ulong Linux_power_gpu_freq file_key
                   var_power_gpu_key])
  else (-1, done ++ [gatorfs_mkdir Linux_power_gpu_freq false]).

Definition gator_trace_power_create_files (k : environment)
    (mkdir : gatorfs_dir -> bool) : Z * list gatorfs_call :=
  if found_nonzero_freq k then
    if mkdir Linux_power_cpu_freq then
      create_gpu_files mkdir
        [gatorfs_mkdir Linux_power_cpu_freq true;
         gatorfs_create_ulong Linux_power_cpu_freq file_enabled
           (var_power_cpu_enabled POWER_CPU_FREQ);
         gatorfs_create_ro_ulong Linux_power_cpu_freq file_key
           (var_power_cpu_key POWER_CPU_FREQ)]
    else (-1, [gatorfs_mkdir Linux_power_cpu_freq false])
  else create_gpu_files mkdir [].

(** The files a list of requests leaves in gatorfs, with their access. *)
Definition writable (v : exported) (out : list gatorfs_call) : Prop :=
  exists dir name, gatorfs_create_ulong dir name v ∈ out.

Definition readable_only (v : exported) (out : list gatorfs_call) : Prop :=
  (exists dir name, gatorfs_create_ro_ulong dir name v ∈ out)
  /\ ~ writable v out.

(** ** Further vocabulary *)

Global Instance event_eq_dec : EqDecision event.
Proof. solve_decision. Defined.

(** The idle states a list of calls hands to [marshal_idle], in order. *)
Definition forwarded_states (out : list call) : list Z :=
  omap (fun c => match c with marshal_idle _ st => Some st | _ => None end) out.

(** No element equals the one before it ([prev] before the first). *)
Fixpoint no_repeat (prev : Z) (l : list Z) : Prop :=
  match l with
  | [] => True
  | x :: l' => x ≠ prev /\ no_repeat x l'
  end.

(** The key a frequency sample is tagged with. *)
Definition key_of (c : call) : option Z :=
  match c with
  | marshal_event_single64 _ key _ => Some key
  | marshal_event_single _ key _ => Some key
  | _ => None
  end.

(** A frequency sample carries one of the two keys of state [s]. *)
Definition tagged (s : state) (c : call) : Prop :=
  match key_of c with
  | Some key => key = idx (power_cpu_key s) POWER_CPU_FREQ \/ key = power_gpu_key s
  | None => True
  end.

(** The environment [k] with every frequency policy reporting [cur]. *)
Definition with_policy (cur : Z) (k : environment) : environment :=
  {| lcpu_to_pcpu := lcpu_to_pcpu k;
     get_physical_cpu := get_physical_cpu k;
     get_logical_cpu := get_logical_cpu k;
     cpu_present_mask := cpu_present_mask k;
     cpu_online := cpu_online k;
     cpufreq_cpu_get := fun _ => Some cur;
     cpufreq_quick_get := cpufreq_quick_get k;
     jiffies := jiffies k;
     nr_cpu_ids := nr_cpu_ids k;
     msecs_to_jiffies := msecs_to_jiffies k;
     register_trace := register_trace k;
     gator_events_get_key := gator_events_get_key k |}.

(** The environment [k] with another present mask. *)
Definition with_present (l : list Z) (k : environment) : environment :=
  {| lcpu_to_pcpu := lcpu_to_pcpu k;
     get_physical_cpu := get_physical_cpu k;
     get_logical_cpu := get_logical_cpu k;
     cpu_present_mask := l;
     cpu_online := cpu_online k;
     cpufreq_cpu_get := cpufreq_cpu_get k;
     cpufreq_quick_get := cpufreq_quick_get k;
     jiffies := jiffies k;
     nr_cpu_ids := nr_cpu_ids k;
     msecs_to_jiffies := msecs_to_jiffies k;
     register_trace := register_trace k;
     gator_events_get_key := gator_events_get_key k |}.

(** * Properties *)

Lemma nonzero_false (z : Z) : nonzero z = false -> z = 0.
Proof. unfold nonzero. rewrite negb_false_iff. apply Z.eqb_eq. Qed.

Lemma nonzero_true (z : Z) : nonzero z = true <-> z ≠ 0.
Proof. unfold nonzero. rewrite negb_true_iff. apply Z.eqb_neq. Qed.

Lemma nonzero_0 : nonzero 0 = false.
Proof. reflexivity. Qed.

(** ** Loops *)

Lemma for_each_modify {A} (l : list A) (f : A -> state -> state) (s : state) :
  for_each l (fun x => modify (f x)) s = (tt, fold_left (fun s x => f x s) l s, []).
Proof.
  revert s; induction l as [|x l IH]; intros s; [reflexivity|].
  cbn [for_each fold_left]. unfold bind, modify at 1. by rewrite IH.
Qed.

Lemma for_each_update {A} (l : list A) (f : A -> state -> state) (s : state) :
  for_each l (fun x s => (tt, f x s, [])) s
  = (tt, fold_left (fun s x => f x s) l s, []).
Proof. exact (for_each_modify l f s). Qed.

(** Unfolding of the C functions, and evaluation of a function body once the
    conditions it tests have been decided and sit among the hypotheses. *)
Ltac exec :=
  unfold gator_trace_power_start, gator_trace_power_stop, gator_trace_power_init,
    fail_cpu_idle_exit, fail_gpufreq_set_exit, fail_cpu_frequency_exit,
    GATOR_REGISTER_TRACE, GATOR_UNREGISTER_TRACE, schedule_delayed_work,
    setup_deferrable_timer_on_stack, del_timer_sync, mod_timer,
    freq_wake_up_handler, probe_cpu_frequency, probe_gpu_frequency,
    gator_trace_power_online, gator_trace_power_offline,
    result_value, result_state, result_calls, bind, get, modify, emit, ret, when.

Ltac evaluate :=
  repeat (progress (cbn; rewrite ?nonzero_0, ?for_each_update;
                    repeat match goal with
                           | H : nonzero _ = _ |- _ => rewrite H
                           end)).

Lemma for_each_cons_state {A} (x : A) (l : list A) (body : A -> M unit) (s : state) :
  result_state (for_each (x :: l) body s)
  = result_state (for_each l body (result_state (body x s))).
Proof.
  cbn [for_each]. unfold bind, result_state.
  destruct (body x s) as [[[] s1] o1]; cbn [fst snd].
  by destruct (for_each l body s1) as [[[] s2] o2].
Qed.

Lemma for_each_cons_calls {A} (x : A) (l : list A) (body : A -> M unit) (s : state) :
  result_calls (for_each (x :: l) body s)
  = result_calls (body x s)
    ++ result_calls (for_each l body (result_state (body x s))).
Proof.
  cbn [for_each]. unfold bind, result_state, result_calls.
  destruct (body x s) as [[[] s1] o1]; cbn [fst snd].
  by destruct (for_each l body s1) as [[[] s2] o2].
Qed.

(** ** The idle-state tracker *)

Lemma per_cpu_set_idle_prev_state (s : state) (cpu v q : Z) :
  per_cpu_idle_prev_state (set_idle_prev_state cpu v s) q
  = if decide (cpu = q) then v else per_cpu_idle_prev_state s q.
Proof.
  unfold per_cpu_idle_prev_state, set_idle_prev_state; cbn.
  rewrite lookup_insert. by case_decide.
Qed.

(** One invocation of the idle probe, case by case. *)
Lemma probe_cpu_idle_unfold (tgt : target) (k : environment) (st cpu : Z) (s : state) :
  probe_cpu_idle tgt k st cpu s
  = if decide (st = per_cpu_idle_prev_state s (lcpu_to_pcpu k cpu))
    then (tt, s, [])
    else (tt, set_idle_prev_state (lcpu_to_pcpu k cpu) st s,
          if implements_wfi tgt then [marshal_idle (lcpu_to_pcpu k cpu) st] else []).
Proof.
  unfold probe_cpu_idle, bind, get; cbn.
  case_decide as Heq.
  - by rewrite (proj2 (Z.eqb_eq _ _) Heq).
  - rewrite (proj2 (Z.eqb_neq _ _) Heq). by destruct (implements_wfi tgt).
Qed.

Lemma probe_cpu_idle_stored (tgt : target) (k : environment) (st cpu : Z) (s : state) :
  per_cpu_idle_prev_state (result_state (probe_cpu_idle tgt k st cpu s))
    (lcpu_to_pcpu k cpu) = st.
Proof.
  rewrite probe_cpu_idle_unfold. case_decide as Heq; cbn; [done|].
  rewrite per_cpu_set_idle_prev_state. by rewrite decide_True.
Qed.

Lemma probe_cpu_idle_other (tgt : target) (k : environment) (st cpu q : Z) (s : state) :
  q ≠ lcpu_to_pcpu k cpu ->
  per_cpu_idle_prev_state (result_state (probe_cpu_idle tgt k st cpu s)) q
  = per_cpu_idle_prev_state s q.
Proof.
  intros Hq. rewrite probe_cpu_idle_unfold. case_decide; cbn; [done|].
  rewrite per_cpu_set_idle_prev_state. by rewrite decide_False.
Qed.

(** The bookkeeping does not depend on the target. *)
Lemma probe_cpu_idle_state_any_target (tgt tgt' : target) (k : environment)
    (st cpu : Z) (s : state) :
  result_state (probe_cpu_idle tgt k st cpu s)
  = result_state (probe_cpu_idle tgt' k st cpu s).
Proof. rewrite !probe_cpu_idle_unfold. by case_decide. Qed.

Lemma observe_all_state_any_target (tgt tgt' : target) (k : environment)
    (obs : list Z) (cpu : Z) (s : state) :
  result_state (observe_all tgt k obs cpu s)
  = result_state (observe_all tgt' k obs cpu s).
Proof.
  unfold observe_all. revert s; induction obs as [|st obs IH]; intros s; [done|].
  rewrite !for_each_cons_state.
  rewrite (probe_cpu_idle_state_any_target tgt tgt'). apply IH.
Qed.

Lemma observe_all_calls (tgt : target) (k : environment) (obs : list Z)
    (cpu : Z) (s : state) :
  result_calls (observe_all tgt k obs cpu s)
  = if implements_wfi tgt
    then map (marshal_idle (lcpu_to_pcpu k cpu))
           (transitions (per_cpu_idle_prev_state s (lcpu_to_pcpu k cpu)) obs)
    else [].
Proof.
  unfold observe_all. revert s; induction obs as [|st obs IH]; intros s.
  - by destruct (implements_wfi tgt).
  - rewrite for_each_cons_calls, IH, probe_cpu_idle_stored.
    rewrite probe_cpu_idle_unfold. cbn [transitions].
    case_decide; cbn; [done|]. by destruct (implements_wfi tgt).
Qed.



(** ** Registration and rollback in [gator_trace_power_start] *)

Lemma start_failure_shape (k : environment) (s : state)
    (attached : list tracepoint) (t : tracepoint) :
  register_until_refused k (List.filter (wanted s) registration_order)
    = (attached, Some t) ->
  result_value (gator_trace_power_start k s) = -1
  /\ result_calls (gator_trace_power_start k s)
     = map registered_ok attached
       ++ [GATOR_REGISTER_TRACE_call t (register_trace k t)]
       ++ map GATOR_UNREGISTER_TRACE_call (rev attached)
       ++ [pr_err_failed_to_activate]
  /\ power_cpu_enabled (result_state (gator_trace_power_start k s)) = power_cpu_enabled s
  /\ power_gpu_enabled (result_state (gator_trace_power_start k s)) = power_gpu_enabled s
  /\ probes (result_state (gator_trace_power_start k s))
     = probes s ∖ list_to_set attached.
Proof.
  unfold registration_order, registered_ok. intros H. exec. revert H.
  destruct (nonzero (idx (power_cpu_enabled s) POWER_CPU_FREQ)) eqn:Ec;
  destruct (nonzero (power_gpu_enabled s)) eqn:Eg;
  destruct (nonzero (register_trace k cpu_frequency)) eqn:E1;
  destruct (nonzero (register_trace k gpu_frequency)) eqn:E2;
  destruct (nonzero (register_trace k cpu_idle)) eqn:E3;
  unfold wanted; evaluate; try discriminate;
  intros Hreg; injection Hreg as <- <-; cbn;
  rewrite ?(nonzero_false _ E1), ?(nonzero_false _ E2);
  (repeat split; try reflexivity); unfold attach, detach; set_solver.
Qed.

(** Start returns 0 or -1, and -1 exactly when a wanted registration is
    refused. *)
Lemma start_outcome (k : environment) (s : state) :
  let refused :=
    snd (register_until_refused k (List.filter (wanted s) registration_order)) in
  (result_value (gator_trace_power_start k s) = 0 /\ refused = None)
  \/ (result_value (gator_trace_power_start k s) = -1 /\ refused ≠ None).
Proof.
  unfold registration_order. exec.
  destruct (nonzero (idx (power_cpu_enabled s) POWER_CPU_FREQ)) eqn:Ec;
  destruct (nonzero (power_gpu_enabled s)) eqn:Eg;
  destruct (nonzero (register_trace k cpu_frequency)) eqn:E1;
  destruct (nonzero (register_trace k gpu_frequency)) eqn:E2;
  destruct (nonzero (register_trace k cpu_idle)) eqn:E3;
  unfold wanted; evaluate; (by left) || (by right).
Qed.

(** C2. When the registration asked for at step [step] of start (counting
    from 0 along cpu_frequency, gpu_frequency, cpu_idle) is refused after the
    earlier wanted ones succeeded, start makes exactly these calls: the
    successful registrations, the refused one, the unregistration of the
    successfully registered hooks in reverse order, and the error report; it
    returns -1, leaves both enabled flags as they were and leaves none of the
    hooks it attached behind. *)
Theorem start_failure_rollback (k : environment) (s : state) (step : nat)
    (t : tracepoint) :
  registration_order !! step = Some t ->
  wanted s t = true ->
  register_trace k t ≠ 0 ->
  Forall (fun t' => wanted s t' = true -> register_trace k t' = 0)
    (take step registration_order) ->
  let attached := List.filter (wanted s) (take step registration_order) in
  let r := gator_trace_power_start k s in
  result_value r = -1
  /\ result_calls r
     = map registered_ok attached
       ++ [GATOR_REGISTER_TRACE_call t (register_trace k t)]
       ++ map GATOR_UNREGISTER_TRACE_call (rev attached)
       ++ [pr_err_failed_to_activate]
  /\ power_cpu_enabled (result_state r) = power_cpu_enabled s
  /\ power_gpu_enabled (result_state r) = power_gpu_enabled s
  /\ probes (result_state r) = probes s ∖ list_to_set attached.
Proof.
  intros Hstep Hwant Hfail Hbefore attached r. subst r attached.
  apply start_failure_shape.
  apply nonzero_true in Hfail.
  assert (Hok : forall t', t' ∈ take step registration_order ->
            wanted s t' = true -> nonzero (register_trace k t') = false).
  { intros t' Hin Hw.
    by rewrite (proj1 (Forall_forall _ _) Hbefore t' Hin Hw). }
  unfold registration_order in *.
  destruct step as [|[|[|step]]]; cbn in Hstep; try discriminate;
    injection Hstep as <-; cbn [take] in *.
  - cbn [List.filter]. rewrite Hwant. cbn. by rewrite Hfail.
  - cbn [List.filter].
    destruct (wanted s cpu_frequency) eqn:Hc; rewrite Hwant; cbn;
      rewrite ?(Hok cpu_frequency) by (done || set_solver); cbn;
      by rewrite Hfail.
  - cbn [List.filter].
    destruct (wanted s cpu_frequency) eqn:Hc; destruct (wanted s gpu_frequency) eqn:Hg;
      rewrite Hwant; cbn;
      rewrite ?(Hok cpu_frequency) by (done || set_solver); cbn;
      rewrite ?(Hok gpu_frequency) by (done || set_solver); cbn;
      by rewrite Hfail.
Qed.

Lemma start_failure_rollback_witness :
  result_value (gator_trace_power_start (refusing cpu_idle quad_core) both_enabled) = -1
  /\ result_calls (gator_trace_power_start (refusing cpu_idle quad_core) both_enabled)
     = [GATOR_REGISTER_TRACE_call cpu_frequency 0;
        GATOR_REGISTER_TRACE_call gpu_frequency 0;
        GATOR_REGISTER_TRACE_call cpu_idle (-16);
        GATOR_UNREGISTER_TRACE_call gpu_frequency;
        GATOR_UNREGISTER_TRACE_call cpu_frequency;
        pr_err_failed_to_activate].
Proof.
  destruct (start_failure_rollback (refusing cpu_idle quad_core) both_enabled
              2 cpu_idle) as (Hv & Hc & _).
  - reflexivity.
  - reflexivity.
  - vm_compute. discriminate.
  - repeat constructor.
  - split; [exact Hv | exact Hc].
Defined.

(** ** A successful start *)

Lemma reset_idle_prev_state (l : list Z) (s : state) (q : Z) :
  per_cpu_idle_prev_state
    (fold_left (fun s cpu => set_idle_prev_state cpu 0 s) l s) q
  = if decide (q ∈ l) then 0 else per_cpu_idle_prev_state s q.
Proof.
  revert s; induction l as [|c l IH]; intros s; cbn [fold_left].
  - rewrite decide_False; [done | set_solver].
  - rewrite IH, per_cpu_set_idle_prev_state.
    destruct (decide (q ∈ l)) as [Hin|Hin].
    + rewrite decide_True; [done | set_solver].
    + destruct (decide (c = q)) as [->|Hne].
      * rewrite decide_True; [done | set_solver].
      * rewrite decide_False; [done | set_solver].
Qed.

Lemma reset_all_fields (l : list Z) (s : state) :
  let s' := fold_left (fun s cpu => set_idle_prev_state cpu 0 s) l s in
  power_cpu_enabled s' = power_cpu_enabled s
  /\ power_cpu_key s' = power_cpu_key s
  /\ power_gpu_enabled s' = power_gpu_enabled s
  /\ power_gpu_key s' = power_gpu_key s
  /\ freq_work s' = freq_work s
  /\ freq_wake_up_timer s' = freq_wake_up_timer s
  /\ probes s' = probes s
  /\ keys_drawn s' = keys_drawn s.
Proof.
  revert s; induction l as [|c l IH]; intros s; [done|].
  cbn [fold_left].
  destruct (IH (set_idle_prev_state c 0 s)) as (-> & -> & -> & -> & -> & -> & -> & ->).
  done.
Qed.

Lemma reset_all_idle (l : list Z) (s1 s2 : state) :
  idle_prev_state s1 = idle_prev_state s2 ->
  idle_prev_state (fold_left (fun s cpu => set_idle_prev_state cpu 0 s) l s1)
  = idle_prev_state (fold_left (fun s cpu => set_idle_prev_state cpu 0 s) l s2).
Proof.
  revert s1 s2; induction l as [|c l IH]; intros s1 s2 H; [done|].
  cbn [fold_left]. apply IH. cbn. by rewrite H.
Qed.

Lemma start_success_shape (k : environment) (s : state) :
  result_value (gator_trace_power_start k s) = 0 ->
  let s' := result_state (gator_trace_power_start k s) in
  idle_prev_state s'
  = idle_prev_state
      (fold_left (fun s cpu => set_idle_prev_state cpu 0 s) (cpu_present_mask k) s)
  /\ freq_work s' = true
  /\ freq_wake_up_timer s' = None
  /\ power_cpu_enabled s' = power_cpu_enabled s
  /\ power_gpu_enabled s' = power_gpu_enabled s
  /\ power_cpu_key s' = power_cpu_key s
  /\ power_gpu_key s' = power_gpu_key s
  /\ probes s'
     = probes s ∪ list_to_set (List.filter (wanted s) registration_order)
  /\ result_calls (gator_trace_power_start k s)
     = map registered_ok (List.filter (wanted s) registration_order).
Proof.
  unfold registration_order, registered_ok. exec.
  destruct (nonzero (idx (power_cpu_enabled s) POWER_CPU_FREQ)) eqn:Ec;
  destruct (nonzero (power_gpu_enabled s)) eqn:Eg;
  destruct (nonzero (register_trace k cpu_frequency)) eqn:E1;
  destruct (nonzero (register_trace k gpu_frequency)) eqn:E2;
  destruct (nonzero (register_trace k cpu_idle)) eqn:E3;
  unfold wanted; evaluate; try discriminate; intros _;
  rewrite ?(nonzero_false _ E1), ?(nonzero_false _ E2), ?(nonzero_false _ E3).
  all: match goal with
       | |- context [fold_left _ ?l ?s0] =>
           destruct (reset_all_fields l s0) as (-> & -> & -> & -> & -> & -> & -> & _);
           rewrite (reset_all_idle l s0 s) by reflexivity
       end.
  all: cbn; repeat split; try reflexivity.
  all: unfold attach; set_solver.
Qed.

Lemma start_success_sentinel (k : environment) (s : state) (q : Z) :
  result_value (gator_trace_power_start k s) = 0 ->
  q ∈ cpu_present_mask k ->
  per_cpu_idle_prev_state (result_state (gator_trace_power_start k s)) q = 0.
Proof.
  intros Hok Hq. destruct (start_success_shape k s Hok) as (Hidle & _).
  unfold per_cpu_idle_prev_state. rewrite Hidle.
  fold (per_cpu_idle_prev_state
          (fold_left (fun s cpu => set_idle_prev_state cpu 0 s) (cpu_present_mask k) s) q).
  rewrite reset_idle_prev_state. by rewrite decide_True.
Qed.

Lemma observe_all_other (tgt : target) (k : environment) (obs : list Z)
    (cpu q : Z) (s : state) :
  q ≠ lcpu_to_pcpu k cpu ->
  per_cpu_idle_prev_state (result_state (observe_all tgt k obs cpu s)) q
  = per_cpu_idle_prev_state s q.
Proof.
  intros Hq. unfold observe_all.
  revert s; induction obs as [|st obs IH]; intros s; [done|].
  rewrite for_each_cons_state, IH. by apply probe_cpu_idle_other.
Qed.

(** C10, amended. A successful start stores 0 as the last-observed idle
    state under every identity of the present mask; the idle probe indexes
    that store by the physical identity of the reported CPU, so for a CPU
    whose physical identity is in the present mask a first idle event
    reporting state 0 forwards nothing, whatever the target and whatever was
    observed for other CPUs in between. *)
Theorem first_idle_zero_dropped (tgt : target) (k k' : environment) (s : state)
    (cpu : Z) :
  result_value (gator_trace_power_start k s) = 0 ->
  lcpu_to_pcpu k' cpu ∈ cpu_present_mask k ->
  let s' := result_state (gator_trace_power_start k s) in
  per_cpu_idle_prev_state s' (lcpu_to_pcpu k' cpu) = 0
  /\ result_calls (probe_cpu_idle tgt k' 0 cpu s') = []
  /\ forall obs other,
       lcpu_to_pcpu k' other ≠ lcpu_to_pcpu k' cpu ->
       result_calls
         (probe_cpu_idle tgt k' 0 cpu (result_state (observe_all tgt k' obs other s')))
       = [].
Proof.
  intros Hok Hin s'. subst s'.
  pose proof (start_success_sentinel k s _ Hok Hin) as H0.
  split; [exact H0|]. split.
  - rewrite probe_cpu_idle_unfold. by rewrite decide_True.
  - intros obs other Hne. rewrite probe_cpu_idle_unfold.
    rewrite decide_True; [done|]. rewrite observe_all_other by congruence. by rewrite H0.
Qed.

Lemma first_idle_zero_dropped_witness :
  result_calls
    (probe_cpu_idle (arm false) quad_core 0 2
       (result_state (gator_trace_power_start quad_core both_enabled))) = [].
Proof.
  apply (first_idle_zero_dropped (arm false) quad_core quad_core both_enabled 2).
  - reflexivity.
  - apply (bool_decide_unpack _). vm_compute. exact I.
Defined.

(** C10, counterexample. Logical CPUs 0 and 1 are present and logical CPU 0
    is physical CPU 3.  In a first session CPU 0 reports idle state 2; after
    stop and a second successful start, whose reset loop writes the slots 0
    and 1 only, the first idle event of present CPU 0 reports state 0 and is
    forwarded. *)
Lemma first_idle_zero_forwarded_after_restart :
  0 ∈ cpu_present_mask (with_present [0; 1] quad_core)
  /\ snd <$> run (arm false) (with_present [0; 1] quad_core)
               [call_start; trace_cpu_idle 2 0; call_stop; call_start;
                trace_cpu_idle 0 0] both_enabled
     = Some [GATOR_REGISTER_TRACE_call cpu_frequency 0;
             GATOR_REGISTER_TRACE_call gpu_frequency 0;
             GATOR_REGISTER_TRACE_call cpu_idle 0;
             marshal_idle 3 2;
             GATOR_UNREGISTER_TRACE_call cpu_frequency;
             GATOR_UNREGISTER_TRACE_call gpu_frequency;
             GATOR_UNREGISTER_TRACE_call cpu_idle;
             GATOR_REGISTER_TRACE_call gpu_frequency 0;
             GATOR_REGISTER_TRACE_call cpu_idle 0;
             marshal_idle 3 0].
Proof.
  split; [apply (bool_decide_unpack _); vm_compute; exact I|].
  vm_compute. reflexivity.
Qed.




(** ** Scaling of frequencies *)

Lemma mul_1000L_long64 (u : Z) :
  0 <= u <= UINT_MAX -> mul_1000L (not_arm LP64) u = u * 1000.
Proof.
  unfold mul_1000L, wrap_signed, UINT_MAX; cbn [long_bits]. intros Hu.
  change (2 ^ 32 - 1 <? 2 ^ (64 - 1)) with true; cbn match.
  change (2 ^ (64 - 1)) with 9223372036854775808.
  change (2 ^ 64) with 18446744073709551616.
  rewrite Z.mod_small; lia.
Qed.

Lemma mul_1000L_long32 (tgt : target) (u : Z) :
  long_bits tgt = 32 -> 0 <= u <= UINT_MAX ->
  mul_1000L tgt u = (u * 1000) mod 2 ^ 32.
Proof.
  unfold mul_1000L, wrap_unsigned, UINT_MAX. intros -> Hu.
  change (2 ^ 32 - 1 <? 2 ^ (32 - 1)) with false; cbn match.
  rewrite (Z.mod_small u); [done | lia].
Qed.

(** The product is the exact frequency in Hz whenever it fits the width of
    [long] on the target; with a 64-bit [long] it always does. *)
Lemma mul_1000L_exact (tgt : target) (u : Z) :
  0 <= u <= UINT_MAX -> u * 1000 < 2 ^ long_bits tgt ->
  mul_1000L tgt u = u * 1000.
Proof.
  intros Hu Hfit. destruct tgt as [b|[|]].
  - rewrite mul_1000L_long32 by done. cbn [long_bits] in Hfit.
    rewrite Z.mod_small; lia.
  - rewrite mul_1000L_long32 by done. cbn [long_bits] in Hfit.
    rewrite Z.mod_small; lia.
  - by apply mul_1000L_long64.
Qed.

(** ** The poller *)

Lemma wq_freq_handler_loop (tgt : target) (k : environment) (l : list Z) (s : state) :
  for_each l (wq_freq_handler_body tgt k) s
  = (tt, s, flat_map (cycle_sample tgt k (idx (power_cpu_key s) POWER_CPU_FREQ)) l).
Proof.
  induction l as [|cpu l IH]; [reflexivity|].
  cbn [for_each flat_map]. unfold bind at 1.
  assert (Hbody : wq_freq_handler_body tgt k cpu s
            = (tt, s, cycle_sample tgt k (idx (power_cpu_key s) POWER_CPU_FREQ) cpu)).
  { unfold wq_freq_handler_body, cycle_sample.
    destruct (cpu_online k cpu); [destruct (cpufreq_cpu_get k cpu)|]; reflexivity. }
  rewrite Hbody; cbn [fst snd]. by rewrite IH.
Qed.

Lemma wq_freq_handler_shape (tgt : target) (k : environment) (s : state) :
  wq_freq_handler tgt k s
  = (tt,
     set_freq_wake_up_timer
       (Some (wrap_unsigned (long_bits tgt) (jiffies k + msecs_to_jiffies k 500))) s,
     flat_map (cycle_sample tgt k (idx (power_cpu_key s) POWER_CPU_FREQ))
       (cpu_present_mask k)).
Proof.
  unfold wq_freq_handler, bind. rewrite wq_freq_handler_loop.
  unfold mod_timer, modify; cbn. by rewrite app_nil_r.
Qed.

Lemma cycle_sample_about (tgt : target) (k : environment) (key cpu : Z) :
  Forall (fun c => core_of c = Some cpu) (cycle_sample tgt k key cpu).
Proof.
  unfold cycle_sample.
  destruct (cpu_online k cpu); [destruct (cpufreq_cpu_get k cpu)|];
    repeat constructor.
Qed.

Lemma filter_about_sample (tgt : target) (k : environment) (key c cpu : Z) :
  List.filter (about cpu) (cycle_sample tgt k key c)
  = if decide (c = cpu) then cycle_sample tgt k key c else [].
Proof.
  unfold cycle_sample, about.
  destruct (cpu_online k c); [destruct (cpufreq_cpu_get k c)|];
    cbn [List.filter core_of]; case_decide; subst;
    rewrite ?bool_decide_eq_true_2 by done;
    rewrite ?bool_decide_eq_false_2 by congruence; done.
Qed.

Lemma filter_about_cycle (tgt : target) (k : environment) (key cpu : Z) (l : list Z) :
  NoDup l ->
  List.filter (about cpu) (flat_map (cycle_sample tgt k key) l)
  = if decide (cpu ∈ l) then cycle_sample tgt k key cpu else [].
Proof.
  induction 1 as [|c l Hc Hl IH]; cbn [flat_map].
  - rewrite decide_False; [done | set_solver].
  - rewrite List.filter_app, IH, filter_about_sample.
    destruct (decide (c = cpu)) as [->|Hne].
    + rewrite decide_False by done. rewrite decide_True by set_solver.
      by rewrite app_nil_r.
    + cbn [app]. destruct (decide (cpu ∈ l)).
      * rewrite decide_True; [done | set_solver].
      * rewrite decide_False; [done | set_solver].
Qed.

(** The shape of one pass of the poller: it walks the present CPUs in order
    and hands over, for each of them, the single sample [cycle_sample]
    describes, all tagged with the CpuFrequency key: value 0 for an offline
    CPU, the policy frequency multiplied by [1000L] for an online CPU with a
    policy, nothing for an online CPU without one.  The pass changes nothing
    else than the wake-up timer, which it arms 500 ms ahead; when that timer
    expires the next pass is queued. *)
Theorem wq_freq_handler_cycle (tgt : target) (k : environment) (s : state) :
  NoDup (cpu_present_mask k) ->
  let r := wq_freq_handler tgt k s in
  let key := idx (power_cpu_key s) POWER_CPU_FREQ in
  result_calls r = flat_map (cycle_sample tgt k key) (cpu_present_mask k)
  /\ (forall cpu, cpu ∈ cpu_present_mask k ->
        let samples := List.filter (about cpu) (result_calls r) in
        (cpu_online k cpu = false -> samples = [marshal_event_single cpu key 0])
        /\ (forall cur, cpu_online k cpu = true -> cpufreq_cpu_get k cpu = Some cur ->
              samples = [marshal_event_single64 cpu key (mul_1000L tgt cur)]
              /\ (0 <= cur <= UINT_MAX -> cur * 1000 < 2 ^ long_bits tgt ->
                  mul_1000L tgt cur = cur * 1000))
        /\ (cpu_online k cpu = true -> cpufreq_cpu_get k cpu = None -> samples = []))
  /\ (forall cpu, cpu ∉ cpu_present_mask k ->
        List.filter (about cpu) (result_calls r) = [])
  /\ result_state r
     = set_freq_wake_up_timer
         (Some (wrap_unsigned (long_bits tgt) (jiffies k + msecs_to_jiffies k 500))) s
  /\ (forall k', exists s2,
        step tgt k' timer_expires (result_state r) = Some (s2, [])
        /\ freq_work s2 = true /\ freq_wake_up_timer s2 = None).
Proof.
  intros Hnodup r key. subst r key.
  rewrite wq_freq_handler_shape. unfold result_calls, result_state; cbn [fst snd].
  split; [reflexivity|]. split; [|split; [|split]].
  - intros cpu Hin. cbv zeta.
    rewrite filter_about_cycle by done. rewrite decide_True by done.
    unfold cycle_sample. split; [|split].
    + by intros ->.
    + intros cur -> ->. split; [done|]. apply mul_1000L_exact.
    + by intros -> ->.
  - intros cpu Hout. rewrite filter_about_cycle by done. by rewrite decide_False.
  - reflexivity.
  - intros k'. eexists. cbn. split; [reflexivity|]. by split.
Qed.

Lemma wq_freq_handler_cycle_witness :
  result_calls (wq_freq_handler (not_arm LP64) quad_core both_enabled)
  = [marshal_event_single64 0 3 1200000000;
     marshal_event_single64 1 3 1200001000;
     marshal_event_single 3 3 0].
Proof.
  destruct (wq_freq_handler_cycle (not_arm LP64) quad_core both_enabled) as (Hcalls & _).
  - apply (bool_decide_unpack _). vm_compute. exact I.
  - exact Hcalls.
Defined.

(** C6. The pass scales the policy frequency with [policy->cur * 1000L], the
    expression of the frequency probes: with a 32-bit [long] the product is
    computed modulo 2^32, so for an online CPU whose policy reports 4294968
    the pass hands over 704 instead of 4294968000; with a 64-bit [long] the
    same pass hands over the exact value. *)
Theorem poller_scaling_wraps_with_32bit_long (k : environment) (s : state)
    (cpu : Z) :
  NoDup (cpu_present_mask k) ->
  cpu ∈ cpu_present_mask k ->
  cpu_online k cpu = true ->
  cpufreq_cpu_get k cpu = Some 4294968 ->
  let key := idx (power_cpu_key s) POWER_CPU_FREQ in
  List.filter (about cpu) (result_calls (wq_freq_handler (arm false) k s))
  = [marshal_event_single64 cpu key 704]
  /\ List.filter (about cpu) (result_calls (wq_freq_handler (not_arm LP64) k s))
     = [marshal_event_single64 cpu key 4294968000]
  /\ 4294968 * 1000 = 4294968000
  /\ 0 <= 4294968 <= UINT_MAX.
Proof.
  intros Hnodup Hin Hon Hcur key. subst key.
  rewrite !wq_freq_handler_shape. unfold result_calls; cbn [snd].
  rewrite !filter_about_cycle by done. rewrite !decide_True by done.
  unfold cycle_sample. rewrite Hon, Hcur.
  repeat split; try reflexivity; unfold UINT_MAX; lia.
Qed.

Lemma poller_scaling_wraps_with_32bit_long_witness :
  List.filter (about 0)
    (result_calls (wq_freq_handler (arm false) (with_policy 4294968 quad_core)
                     both_enabled))
  = [marshal_event_single64 0 3 704].
Proof.
  destruct (poller_scaling_wraps_with_32bit_long (with_policy 4294968 quad_core)
              both_enabled 0) as (Hwrap & _).
  - apply (bool_decide_unpack _). vm_compute. exact I.
  - apply (bool_decide_unpack _). vm_compute. exact I.
  - reflexivity.
  - reflexivity.
  - exact Hwrap.
Defined.

(** ** The frequency probes *)

Lemma probe_cpu_frequency_shape (tgt : target) (k : environment)
    (frequency cpu : Z) (s : state) :
  probe_cpu_frequency tgt k frequency cpu s
  = (tt, s, [marshal_event_single64 (lcpu_to_pcpu k cpu)
               (idx (power_cpu_key s) POWER_CPU_FREQ) (mul_1000L tgt frequency)]).
Proof. reflexivity. Qed.

Lemma probe_gpu_frequency_shape (tgt : target) (k : environment)
    (frequency : Z) (s : state) :
  probe_gpu_frequency tgt k frequency s
  = (tt, s, [marshal_event_single64 (get_physical_cpu k)
               (power_gpu_key s) (mul_1000L tgt frequency)]).
Proof. reflexivity. Qed.

(** Where the product fits [long], both probes forward the exact value in Hz
    under the key of their class, the CPU probe for the physical CPU. *)
Lemma frequency_probes_exact (tgt : target) (k : environment)
    (frequency cpu : Z) (s : state) :
  0 <= frequency <= UINT_MAX ->
  frequency * 1000 < 2 ^ long_bits tgt ->
  result_calls (probe_cpu_frequency tgt k frequency cpu s)
  = [marshal_event_single64 (lcpu_to_pcpu k cpu)
       (idx (power_cpu_key s) POWER_CPU_FREQ) (frequency * 1000)]
  /\ result_calls (probe_gpu_frequency tgt k frequency s)
  = [marshal_event_single64 (get_physical_cpu k) (power_gpu_key s) (frequency * 1000)].
Proof.
  intros Hu Hfit.
  rewrite probe_cpu_frequency_shape, probe_gpu_frequency_shape.
  unfold result_calls; cbn [snd]. by rewrite mul_1000L_exact.
Qed.

(** C9. With a 32-bit [long] (32-bit ARM, the target the file singles out),
    [frequency * 1000L] is computed modulo 2^32: for the frequency 4294968
    both probes forward 704 instead of 4294968000, in every state.  With a
    64-bit [long] the same frequency is forwarded exactly. *)
Theorem frequency_scaling_wraps_with_32bit_long (k : environment) (s : state)
    (cpu : Z) :
  result_calls (probe_cpu_frequency (arm false) k 4294968 cpu s)
  = [marshal_event_single64 (lcpu_to_pcpu k cpu)
       (idx (power_cpu_key s) POWER_CPU_FREQ) 704]
  /\ result_calls (probe_gpu_frequency (arm false) k 4294968 s)
  = [marshal_event_single64 (get_physical_cpu k) (power_gpu_key s) 704]
  /\ 4294968 * 1000 = 4294968000
  /\ 0 <= 4294968 <= UINT_MAX
  /\ result_calls (probe_cpu_frequency (not_arm LP64) k 4294968 cpu s)
  = [marshal_event_single64 (lcpu_to_pcpu k cpu)
       (idx (power_cpu_key s) POWER_CPU_FREQ) 4294968000].
Proof.
  rewrite !probe_cpu_frequency_shape, probe_gpu_frequency_shape.
  unfold result_calls; cbn [snd].
  repeat split; try reflexivity; unfold UINT_MAX; lia.
Qed.

(** C7, counterexample. Both frequency classes are enabled, start succeeds
    and attaches both frequency probes; the daemon then clears both enabled
    files.  The tracepoints fire afterwards, with both flags at 0, and both
    probes still forward their sample. *)
Lemma frequency_probes_forward_when_disabled :
  exists s1 out1,
    run (not_arm LP64) quad_core
      [call_init; write_power_cpu_enabled 1; write_power_gpu_enabled 1; call_start;
       write_power_cpu_enabled 0; write_power_gpu_enabled 0] module_load
    = Some (s1, out1)
    /\ idx (power_cpu_enabled s1) POWER_CPU_FREQ = 0
    /\ power_gpu_enabled s1 = 0
    /\ snd <$> step (not_arm LP64) quad_core (trace_cpu_frequency 1200000 0) s1
       = Some [marshal_event_single64 3 3 1200000000]
    /\ snd <$> step (not_arm LP64) quad_core (trace_gpu_frequency 600000) s1
       = Some [marshal_event_single64 3 0 600000000].
Proof.
  eexists _, _. split; [vm_compute; reflexivity|].
  repeat split; vm_compute; reflexivity.
Qed.

(** C7, amended. The frequency probes do not read the enabled flags: each
    invocation forwards one sample and leaves the state alone, whatever the
    flags are.  The flags gate the registration requests instead: in any
    state, a successful start asks the tracepoint layer for the
    cpu_frequency (gpu_frequency) probe exactly when the CpuFrequency
    (GpuFrequency) flag is nonzero, so that after it the probe is attached
    exactly when the flag was nonzero or the probe was attached already; the
    tracepoint layer only runs attached probes. *)
Theorem frequency_hooks_gated_by_registration (tgt : target) (k : environment)
    (s : state) :
  (forall frequency cpu,
     probe_cpu_frequency tgt k frequency cpu s
     = (tt, s, [marshal_event_single64 (lcpu_to_pcpu k cpu)
                  (idx (power_cpu_key s) POWER_CPU_FREQ) (mul_1000L tgt frequency)]))
  /\ (forall frequency,
        probe_gpu_frequency tgt k frequency s
        = (tt, s, [marshal_event_single64 (get_physical_cpu k)
                     (power_gpu_key s) (mul_1000L tgt frequency)]))
  /\ (result_value (gator_trace_power_start k s) = 0 ->
      let r := gator_trace_power_start k s in
      (forall ret, GATOR_REGISTER_TRACE_call cpu_frequency ret ∈ result_calls r
                   <-> ret = 0 /\ idx (power_cpu_enabled s) POWER_CPU_FREQ ≠ 0)
      /\ (forall ret, GATOR_REGISTER_TRACE_call gpu_frequency ret ∈ result_calls r
                      <-> ret = 0 /\ power_gpu_enabled s ≠ 0)
      /\ (cpu_frequency ∈ probes (result_state r)
          <-> idx (power_cpu_enabled s) POWER_CPU_FREQ ≠ 0 \/ cpu_frequency ∈ probes s)
      /\ (gpu_frequency ∈ probes (result_state r)
          <-> power_gpu_enabled s ≠ 0 \/ gpu_frequency ∈ probes s))
  /\ (forall frequency cpu,
        cpu_frequency ∉ probes s ->
        step tgt k (trace_cpu_frequency frequency cpu) s = None)
  /\ (forall frequency,
        gpu_frequency ∉ probes s ->
        step tgt k (trace_gpu_frequency frequency) s = None).
Proof.
  split; [by intros|]. split; [by intros|]. split; [|split].
  - intros Hok r. subst r.
    destruct (start_success_shape k s Hok) as (_ & _ & _ & _ & _ & _ & _ & Hp & Hcalls).
    rewrite Hp, Hcalls. unfold registration_order, registered_ok.
    pose proof (nonzero_true (idx (power_cpu_enabled s) POWER_CPU_FREQ)) as Hc.
    pose proof (nonzero_true (power_gpu_enabled s)) as Hg.
    cbn [List.filter]. unfold wanted.
    destruct (nonzero (idx (power_cpu_enabled s) POWER_CPU_FREQ));
      destruct (nonzero (power_gpu_enabled s)); cbn [map list_to_set].
    all: split; [intros ret; rewrite !elem_of_cons, elem_of_nil; naive_solver|].
    all: split; [intros ret; rewrite !elem_of_cons, elem_of_nil; naive_solver|].
    all: split; set_solver.
  - intros frequency cpu Hout. cbn. by rewrite decide_False.
  - intros frequency Hout. cbn. by rewrite decide_False.
Qed.

Lemma frequency_hooks_gated_by_registration_witness :
  let s := set_power_cpu_enabled POWER_CPU_FREQ 1
             (result_state (gator_trace_power_init quad_core module_load)) in
  let r := gator_trace_power_start quad_core s in
  (forall ret, GATOR_REGISTER_TRACE_call cpu_frequency ret ∈ result_calls r
               <-> ret = 0 /\ idx (power_cpu_enabled s) POWER_CPU_FREQ ≠ 0)
  /\ (forall ret, GATOR_REGISTER_TRACE_call gpu_frequency ret ∈ result_calls r
                  <-> ret = 0 /\ power_gpu_enabled s ≠ 0).
Proof.
  intros s r.
  destruct (frequency_hooks_gated_by_registration (not_arm LP64) quad_core s)
    as (_ & _ & Hgate & _).
  destruct Hgate as (Hcpu & Hgpu & _); [reflexivity|].
  split; [exact Hcpu | exact Hgpu].
Defined.

(** ** Stop and init *)

Lemma gator_trace_power_stop_fields (s : state) :
  let s' := result_state (gator_trace_power_stop s) in
  power_cpu_enabled s' = <[POWER_CPU_FREQ := 0]> (power_cpu_enabled s)
  /\ power_gpu_enabled s' = power_gpu_enabled s
  /\ power_cpu_key s' = power_cpu_key s
  /\ power_gpu_key s' = power_gpu_key s
  /\ idle_prev_state s' = idle_prev_state s
  /\ freq_work s' = freq_work s
  /\ freq_wake_up_timer s' = None
  /\ keys_drawn s' = keys_drawn s
  /\ probes s'
     = probes s ∖ list_to_set (List.filter (wanted s) registration_order).
Proof.
  unfold registration_order. exec.
  destruct (nonzero (idx (power_cpu_enabled s) POWER_CPU_FREQ)) eqn:Ec;
    destruct (nonzero (power_gpu_enabled s)) eqn:Eg;
    unfold wanted; evaluate; (repeat split; try reflexivity);
    unfold detach; set_solver.
Qed.

(** With the flags left alone between start and stop, stop detaches every
    probe start attached. *)
Lemma stop_after_start_detaches (k : environment) (s : state) :
  probes s = ∅ ->
  result_value (gator_trace_power_start k s) = 0 ->
  probes (result_state (gator_trace_power_stop
                          (result_state (gator_trace_power_start k s)))) = ∅.
Proof.
  intros Hempty Hok.
  destruct (start_success_shape k s Hok) as (_ & _ & _ & Hc & Hg & _ & _ & Hp & _).
  destruct (gator_trace_power_stop_fields (result_state (gator_trace_power_start k s)))
    as (_ & _ & _ & _ & _ & _ & _ & _ & Hq).
  rewrite Hq, Hp, Hempty. unfold registration_order, wanted. rewrite Hc, Hg.
  set_solver.
Qed.

Lemma idx_insert_zero (a : list Z) (i : nat) : idx (<[i := 0]> a) i = 0.
Proof.
  unfold idx. destruct (decide (i < length a)%nat) as [Hlt|Hge].
  - by rewrite list_lookup_insert_eq.
  - rewrite list_insert_ge by lia. rewrite lookup_ge_None_2; [done | lia].
Qed.

(** C4. [gator_trace_power_stop] clears [power_cpu_enabled] and keeps every
    key, but it never writes [power_gpu_enabled]: the GpuFrequency flag has
    after stop the value it had before, in every state; in the session in
    which the daemon enabled both classes it is still 1 after stop. *)
Theorem stop_keeps_power_gpu_enabled (s : state) :
  let s' := result_state (gator_trace_power_stop s) in
  power_gpu_enabled s' = power_gpu_enabled s
  /\ idx (power_cpu_enabled s') POWER_CPU_FREQ = 0
  /\ power_cpu_key s' = power_cpu_key s
  /\ power_gpu_key s' = power_gpu_key s
  /\ power_gpu_enabled
       (result_state
          (gator_trace_power_stop
             (result_state (gator_trace_power_start quad_core both_enabled)))) = 1.
Proof.
  intros s'. subst s'.
  destruct (gator_trace_power_stop_fields s) as (Hc & Hg & Hck & Hgk & _).
  rewrite Hc, Hg, Hck, Hgk. repeat split; try reflexivity.
  apply idx_insert_zero.
Qed.

Lemma gator_trace_power_init_fields (k : environment) (s : state) :
  let s' := result_state (gator_trace_power_init k s) in
  power_cpu_enabled s' = <[POWER_CPU_FREQ := 0]> (power_cpu_enabled s)
  /\ power_cpu_key s'
     = <[POWER_CPU_FREQ := gator_events_get_key k (keys_drawn s)]> (power_cpu_key s)
  /\ power_gpu_enabled s' = power_gpu_enabled s
  /\ power_gpu_key s' = power_gpu_key s
  /\ power_cpu_cores s' = nr_cpu_ids k
  /\ keys_drawn s' = S (keys_drawn s)
  /\ result_calls (gator_trace_power_init k s) = [].
Proof. exec. cbn. repeat split; reflexivity.
Qed.

(** C5. [gator_trace_power_init] draws exactly one key from the allocator and
    stores it in [power_cpu_key]; it writes neither [power_gpu_key] nor
    [power_gpu_enabled].  After module load and init the GpuFrequency key is
    therefore the static initial value 0, whatever the allocator hands
    out. *)
Theorem init_leaves_power_gpu_key (k : environment) (s : state) :
  let s' := result_state (gator_trace_power_init k s) in
  power_gpu_key s' = power_gpu_key s
  /\ power_gpu_enabled s' = power_gpu_enabled s
  /\ keys_drawn s' = S (keys_drawn s)
  /\ power_gpu_key (result_state (gator_trace_power_init k module_load)) = 0
  /\ idx (power_cpu_key (result_state (gator_trace_power_init k module_load)))
       POWER_CPU_FREQ = gator_events_get_key k 0
  /\ idx (power_cpu_enabled (result_state (gator_trace_power_init k module_load)))
       POWER_CPU_FREQ = 0.
Proof.
  intros s'. subst s'.
  destruct (gator_trace_power_init_fields k s) as (_ & _ & Hg & Hgk & _ & Hn & _).
  rewrite Hg, Hgk, Hn. repeat split; reflexivity.
Qed.

(** Keys are written by init only: every other event leaves both keys as
    they are. *)
Lemma step_keeps_keys (tgt : target) (k : environment) (e : event)
    (s s' : state) (out : list call) :
  e ≠ call_init ->
  step tgt k e s = Some (s', out) ->
  power_cpu_key s' = power_cpu_key s /\ power_gpu_key s' = power_gpu_key s.
Proof.
  intros Hne Hstep. destruct e; try done; unfold step, finish in Hstep.
  - case_decide; [|done]. injection Hstep as <- _.
    by rewrite probe_cpu_frequency_shape.
  - case_decide; [|done]. injection Hstep as <- _.
    by rewrite probe_gpu_frequency_shape.
  - case_decide; [|done]. injection Hstep as <- _.
    rewrite probe_cpu_idle_unfold. by case_decide.
  - destruct (freq_wake_up_timer s); [|done]. by injection Hstep as <- _.
  - destruct (freq_work s); [|done]. injection Hstep as <- _.
    by rewrite wq_freq_handler_shape.
  - by injection Hstep as <- _.
  - by injection Hstep as <- _.
  - injection Hstep as <- _.
    destruct (result_value (gator_trace_power_start k s) =? 0) eqn:Hok.
    + apply Z.eqb_eq in Hok.
      destruct (start_success_shape k s Hok) as (_ & _ & _ & _ & _ & Hck & Hgk & _).
      by split.
    + revert Hok. exec.
      destruct (nonzero (idx (power_cpu_enabled s) POWER_CPU_FREQ)) eqn:Ec;
        destruct (nonzero (power_gpu_enabled s)) eqn:Eg;
        destruct (nonzero (register_trace k cpu_frequency)) eqn:E1;
        destruct (nonzero (register_trace k gpu_frequency)) eqn:E2;
        destruct (nonzero (register_trace k cpu_idle)) eqn:E3;
        evaluate; try discriminate; by intros _.
  - injection Hstep as <- _.
    destruct (gator_trace_power_stop_fields s) as (_ & _ & Hck & Hgk & _). by split.
  - injection Hstep as <- _. exec.
    by destruct (nonzero (idx (power_cpu_enabled s) POWER_CPU_FREQ)).
  - injection Hstep as <- _. exec.
    by destruct (nonzero (idx (power_cpu_enabled s) POWER_CPU_FREQ)).
Qed.

(** ** The poller after stop *)

Lemma run_app (tgt : target) (k : environment) (es1 es2 : list event)
    (s s1 s2 : state) (o1 o2 : list call) :
  run tgt k es1 s = Some (s1, o1) ->
  run tgt k es2 s1 = Some (s2, o2) ->
  run tgt k (es1 ++ es2) s = Some (s2, o1 ++ o2).
Proof.
  revert s o1; induction es1 as [|e es1 IH]; intros s o1 H1 H2; cbn in *.
  - by injection H1 as -> <-.
  - destruct (step tgt k e s) as [[sa oa]|]; [|done].
    destruct (run tgt k es1 sa) as [[sb ob]|] eqn:Hrest; [|done].
    injection H1 as -> <-.
    rewrite (IH sa ob Hrest H2). by rewrite app_assoc.
Qed.

Lemma poller_turn_run (tgt : target) (k : environment) (s : state) :
  freq_work s = true ->
  exists s1,
    run tgt k poller_turn s
    = Some (s1, flat_map (cycle_sample tgt k (idx (power_cpu_key s) POWER_CPU_FREQ))
                  (cpu_present_mask k))
    /\ freq_work s1 = true
    /\ power_cpu_key s1 = power_cpu_key s.
Proof.
  intros Hq. unfold poller_turn. cbn [run]. unfold step at 1. rewrite Hq.
  rewrite wq_freq_handler_shape. unfold finish, result_state, result_calls.
  cbn [fst snd]. unfold step. cbn [freq_wake_up_timer set_freq_wake_up_timer].
  unfold freq_wake_up_handler, schedule_delayed_work, modify, finish,
    result_state, result_calls.
  cbn [fst snd]. rewrite !app_nil_r.
  eexists. split; [reflexivity|]. by split.
Qed.

Lemma poller_turns_run (tgt : target) (k : environment) (n : nat) (s : state) :
  freq_work s = true ->
  exists s1,
    run tgt k (poller_turns n) s
    = Some (s1, concat (replicate n
                  (flat_map (cycle_sample tgt k (idx (power_cpu_key s) POWER_CPU_FREQ))
                     (cpu_present_mask k))))
    /\ freq_work s1 = true
    /\ power_cpu_key s1 = power_cpu_key s.
Proof.
  revert s; induction n as [|n IH]; intros s Hq.
  - exists s. by repeat split.
  - destruct (poller_turn_run tgt k s Hq) as (s1 & Hrun1 & Hq1 & Hk1).
    destruct (IH s1 Hq1) as (s2 & Hrun2 & Hq2 & Hk2).
    exists s2. cbn [poller_turns replicate concat]. split; [|split].
    + rewrite Hk1 in Hrun2. exact (run_app _ _ _ _ _ _ _ _ _ Hrun1 Hrun2).
    + exact Hq2.
    + congruence.
Qed.

(** Stop does quiesce the poller when it finds the work not queued. *)
Lemma stop_quiescent_without_queued_work (tgt : target) (k : environment) (s : state) :
  freq_work s = false ->
  step tgt k work_runs (result_state (gator_trace_power_stop s)) = None
  /\ step tgt k timer_expires (result_state (gator_trace_power_stop s)) = None.
Proof.
  intros Hq.
  destruct (gator_trace_power_stop_fields s) as (_ & _ & _ & _ & _ & Hw & Ht & _).
  cbn [step]. by rewrite Hw, Ht, Hq.
Qed.

(** C1. [gator_trace_power_stop] cancels the wake-up timer only.  When the
    work is queued at the time of the call (as it is right after a
    successful start, and after every expiry of the timer), it is still
    queued when stop has returned: the workqueue then runs a poller pass,
    the pass re-arms the timer, the timer queues the work again, and so on
    for any number of turns, each handing a full set of samples to the
    marshalling layer. *)
Theorem poller_outlives_stop (tgt : target) (k : environment) (s : state) :
  freq_work s = true ->
  let s1 := result_state (gator_trace_power_stop s) in
  let samples :=
    flat_map (cycle_sample tgt k (idx (power_cpu_key s) POWER_CPU_FREQ))
      (cpu_present_mask k) in
  freq_work s1 = true
  /\ freq_wake_up_timer s1 = None
  /\ forall n, exists s2,
       run tgt k (poller_turns n) s1 = Some (s2, concat (replicate n samples))
       /\ freq_work s2 = true.
Proof.
  intros Hq s1 samples. subst s1 samples.
  destruct (gator_trace_power_stop_fields s) as (_ & _ & Hck & _ & _ & Hw & Ht & _).
  rewrite Hw, Ht. split; [done|]. split; [done|].
  intros n.
  destruct (poller_turns_run tgt k n (result_state (gator_trace_power_stop s)))
    as (s2 & Hrun & Hq2 & _); [congruence|].
  exists s2. rewrite Hck in Hrun. by split.
Qed.

Lemma poller_outlives_stop_witness :
  exists s2,
    run (not_arm LP64) quad_core [work_runs; timer_expires; work_runs; timer_expires]
      (result_state
         (gator_trace_power_stop
            (result_state (gator_trace_power_start quad_core both_enabled))))
    = Some (s2,
            [marshal_event_single64 0 3 1200000000;
             marshal_event_single64 1 3 1200001000;
             marshal_event_single 3 3 0;
             marshal_event_single64 0 3 1200000000;
             marshal_event_single64 1 3 1200001000;
             marshal_event_single 3 3 0])
    /\ freq_work s2 = true.
Proof.
  destruct (poller_outlives_stop (not_arm LP64) quad_core
              (result_state (gator_trace_power_start quad_core both_enabled)))
    as (_ & _ & Hturns).
  - reflexivity.
  - exact (Hturns 2%nat).
Defined.

(** ** Targets without wait-for-interrupt *)

Lemma no_idle_cycle (tgt : target) (k : environment) (key : Z) (l : list Z) :
  no_idle (flat_map (cycle_sample tgt k key) l).
Proof.
  unfold no_idle. induction l as [|c l IH]; cbn [flat_map]; [constructor|].
  apply Forall_app. split; [|exact IH]. unfold cycle_sample.
  destruct (cpu_online k c); [destruct (cpufreq_cpu_get k c)|]; repeat constructor.
Qed.

Lemma no_idle_start (k : environment) (s : state) :
  no_idle (result_calls (gator_trace_power_start k s)).
Proof.
  unfold no_idle. exec.
  destruct (nonzero (idx (power_cpu_enabled s) POWER_CPU_FREQ)) eqn:Ec;
    destruct (nonzero (power_gpu_enabled s)) eqn:Eg;
    destruct (nonzero (register_trace k cpu_frequency)) eqn:E1;
    destruct (nonzero (register_trace k gpu_frequency)) eqn:E2;
    destruct (nonzero (register_trace k cpu_idle)) eqn:E3;
    evaluate; repeat constructor.
Qed.

Lemma no_idle_stop (s : state) :
  no_idle (result_calls (gator_trace_power_stop s)).
Proof.
  unfold no_idle. exec.
  destruct (nonzero (idx (power_cpu_enabled s) POWER_CPU_FREQ)) eqn:Ec;
    destruct (nonzero (power_gpu_enabled s)) eqn:Eg;
    evaluate; repeat constructor.
Qed.

Lemma step_no_idle (tgt : target) (k : environment) (e : event)
    (s s' : state) (out : list call) :
  implements_wfi tgt = false ->
  step tgt k e s = Some (s', out) -> no_idle out.
Proof.
  intros Hwfi Hstep. destruct e; unfold step, finish in Hstep.
  - case_decide; [|done]. injection Hstep as _ <-. repeat constructor.
  - case_decide; [|done]. injection Hstep as _ <-. repeat constructor.
  - case_decide; [|done].
    rewrite probe_cpu_idle_unfold, Hwfi in Hstep.
    case_decide; injection Hstep as _ <-; constructor.
  - destruct (freq_wake_up_timer s); [|done]. injection Hstep as _ <-. constructor.
  - destruct (freq_work s); [|done].
    rewrite wq_freq_handler_shape in Hstep. injection Hstep as _ <-.
    apply no_idle_cycle.
  - injection Hstep as _ <-. constructor.
  - injection Hstep as _ <-. constructor.
  - pose proof (gator_trace_power_init_fields k s) as (_ & _ & _ & _ & _ & _ & Hcalls).
    assert (out = result_calls (gator_trace_power_init k s)) as -> by congruence.
    rewrite Hcalls. constructor.
  - assert (out = result_calls (gator_trace_power_start k s)) as -> by congruence.
    apply no_idle_start.
  - assert (out = result_calls (gator_trace_power_stop s)) as -> by congruence.
    apply no_idle_stop.
  - assert (out = result_calls (gator_trace_power_online tgt k s)) as -> by congruence.
    exec. destruct (nonzero (idx (power_cpu_enabled s) POWER_CPU_FREQ)); repeat constructor.
  - assert (out = result_calls (gator_trace_power_offline k s)) as -> by congruence.
    exec. destruct (nonzero (idx (power_cpu_enabled s) POWER_CPU_FREQ)); repeat constructor.
Qed.

Lemma run_no_idle (tgt : target) (k : environment) (es : list event)
    (s s' : state) (out : list call) :
  implements_wfi tgt = false ->
  run tgt k es s = Some (s', out) -> no_idle out.
Proof.
  intros Hwfi. revert s out; induction es as [|e es IH]; intros s out Hrun; cbn in Hrun.
  - injection Hrun as _ <-. constructor.
  - destruct (step tgt k e s) as [[s1 o1]|] eqn:Hstep; [|done].
    destruct (run tgt k es s1) as [[s2 o2]|] eqn:Hrest; [|done].
    injection Hrun as <- <-. apply Forall_app. split.
    + exact (step_no_idle _ _ _ _ _ _ Hwfi Hstep).
    + exact (IH _ _ Hrest).
Qed.

(** C8. On a target where [implements_wfi()] is false, every invocation of
    the idle probe forwards nothing and leaves exactly the state it leaves
    on any other target, with the stored state of the reported CPU equal to
    the observation.  The flag is a constant of the target: no schedule of
    events of the subsystem, whatever it contains, ever makes an idle
    transition reach the marshalling layer. *)
Theorem cpu_idle_tracked_not_forwarded (tgt : target) (k : environment) :
  implements_wfi tgt = false ->
  (forall s st cpu,
     result_calls (probe_cpu_idle tgt k st cpu s) = []
     /\ per_cpu_idle_prev_state (result_state (probe_cpu_idle tgt k st cpu s))
          (lcpu_to_pcpu k cpu) = st
     /\ forall tgt',
          result_state (probe_cpu_idle tgt k st cpu s)
          = result_state (probe_cpu_idle tgt' k st cpu s))
  /\ (forall s obs cpu,
        result_calls (observe_all tgt k obs cpu s) = []
        /\ forall tgt',
             result_state (observe_all tgt k obs cpu s)
             = result_state (observe_all tgt' k obs cpu s))
  /\ (forall es s s' out,
        run tgt k es s = Some (s', out) -> no_idle out).
Proof.
  intros Hwfi. split; [|split].
  - intros s st cpu. split; [|split].
    + rewrite probe_cpu_idle_unfold, Hwfi. by case_decide.
    + apply probe_cpu_idle_stored.
    + intros tgt'. apply probe_cpu_idle_state_any_target.
  - intros s obs cpu. split.
    + by rewrite observe_all_calls, Hwfi.
    + intros tgt'. apply observe_all_state_any_target.
  - intros es s s' out. by apply run_no_idle.
Qed.

Lemma cpu_idle_tracked_not_forwarded_witness :
  result_calls
    (observe_all (arm true) quad_core [1; 1; 2; 2; 1] 2
       (result_state (gator_trace_power_start quad_core both_enabled))) = []
  /\ result_state
       (observe_all (arm true) quad_core [1; 1; 2; 2; 1] 2
          (result_state (gator_trace_power_start quad_core both_enabled)))
     = result_state
         (observe_all (arm false) quad_core [1; 1; 2; 2; 1] 2
            (result_state (gator_trace_power_start quad_core both_enabled))).
Proof.
  destruct (cpu_idle_tracked_not_forwarded (arm true) quad_core) as (_ & Hobs & _).
  - reflexivity.
  - destruct (Hobs (result_state (gator_trace_power_start quad_core both_enabled))
                [1; 1; 2; 2; 1] 2) as (Hcalls & Hstate).
    split; [exact Hcalls | exact (Hstate (arm false))].
Defined.

(** * Further properties of the code *)

(** ** Start and stop as a pair *)

Lemma register_until_refused_none (k : environment) (ts : list tracepoint) :
  snd (register_until_refused k ts) = None
  <-> forall t, t ∈ ts -> register_trace k t = 0.
Proof.
  induction ts as [|t ts IH]; cbn [register_until_refused].
  - split; [intros _ t Ht; by apply not_elem_of_nil in Ht | done].
  - destruct (nonzero (register_trace k t)) eqn:Et; cbn [snd].
    + split; [done|]. intros H. apply nonzero_true in Et.
      destruct Et. apply H. by left.
    + apply nonzero_false in Et. rewrite IH. split.
      * intros H t' Ht'. apply elem_of_cons in Ht' as [->|Ht']; auto.
      * intros H t' Ht'. apply H. by right.
Qed.

Lemma wanted_in_order (s : state) (t : tracepoint) :
  t ∈ List.filter (wanted s) registration_order <-> wanted s t = true.
Proof.
  rewrite list_elem_of_In, filter_In, <- list_elem_of_In.
  split; [by intros [_ ?] | intros H; split; [|done]].
  unfold registration_order. destruct t; set_solver.
Qed.

Lemma gator_trace_power_stop_calls (s : state) :
  result_calls (gator_trace_power_stop s)
  = map GATOR_UNREGISTER_TRACE_call (List.filter (wanted s) registration_order).
Proof.
  unfold registration_order. exec.
  destruct (nonzero (idx (power_cpu_enabled s) POWER_CPU_FREQ)) eqn:Ec;
    destruct (nonzero (power_gpu_enabled s)) eqn:Eg;
    unfold wanted; evaluate; reflexivity.
Qed.

(** X1. Start returns 0 or -1, and it returns 0 exactly when the tracepoint
    layer accepts every hook start wants in the state it is called in: the
    frequency hooks whose flag is nonzero, and the idle hook. *)
Theorem start_succeeds_iff_wanted_accepted (k : environment) (s : state) :
  (result_value (gator_trace_power_start k s) = 0
   <-> forall t, wanted s t = true -> register_trace k t = 0)
  /\ (result_value (gator_trace_power_start k s) = 0
      \/ result_value (gator_trace_power_start k s) = -1).
Proof.
  pose proof (start_outcome k s) as Hout. cbv zeta in Hout.
  pose proof (register_until_refused_none k
                (List.filter (wanted s) registration_order)) as Hnone.
  assert (Hall : (forall t, t ∈ List.filter (wanted s) registration_order ->
                    register_trace k t = 0)
                 <-> (forall t, wanted s t = true -> register_trace k t = 0)).
  { split; intros H t Ht; apply H; by apply wanted_in_order. }
  rewrite Hall in Hnone.
  destruct Hout as [[Hv Hr]|[Hv Hr]]; rewrite Hv.
  - split; [|by left]. split; [intros _; by apply Hnone | done].
  - split; [|by right]. split; [done|].
    intros H. destruct Hr. by apply Hnone.
Qed.

(** X2. A start that fails in a state with no probe attached leaves the whole
    state exactly as it found it: every probe it attached is detached again,
    no work is queued, the timer and the idle store are not touched. *)
Theorem failed_start_restores_state (k : environment) (s : state) :
  probes s = ∅ ->
  result_value (gator_trace_power_start k s) ≠ 0 ->
  result_state (gator_trace_power_start k s) = s.
Proof.
  destruct s as [idle cen ckey gen gkey cores work timer ps drawn].
  cbn [probes]. intros ->. exec.
  destruct (nonzero (idx cen POWER_CPU_FREQ)) eqn:Ec;
  destruct (nonzero gen) eqn:Eg;
  destruct (nonzero (register_trace k cpu_frequency)) eqn:E1;
  destruct (nonzero (register_trace k gpu_frequency)) eqn:E2;
  destruct (nonzero (register_trace k cpu_idle)) eqn:E3;
  evaluate; try done; intros _; unfold set_probes; cbn; f_equal;
  unfold attach, detach; set_solver.
Qed.

Lemma failed_start_restores_state_witness :
  result_state (gator_trace_power_start (refusing gpu_frequency quad_core) both_enabled)
  = both_enabled.
Proof.
  apply failed_start_restores_state.
  - reflexivity.
  - vm_compute. discriminate.
Defined.

(** X3. Stop undoes the registrations of the start before it: when the flags
    are left alone in between, stop asks for the unregistration of exactly
    the hooks that start registered, in the order of registration, and no
    probe stays attached. *)
Theorem stop_undoes_start (k : environment) (s : state) :
  probes s = ∅ ->
  result_value (gator_trace_power_start k s) = 0 ->
  let started := gator_trace_power_start k s in
  let stopped := gator_trace_power_stop (result_state started) in
  result_calls started
  = map registered_ok (List.filter (wanted s) registration_order)
  /\ result_calls stopped
     = map GATOR_UNREGISTER_TRACE_call (List.filter (wanted s) registration_order)
  /\ probes (result_state stopped) = ∅
  /\ freq_wake_up_timer (result_state stopped) = None.
Proof.
  intros Hempty Hok started stopped. subst started stopped.
  destruct (start_success_shape k s Hok) as (_ & _ & _ & Hc & Hg & _ & _ & _ & Hcalls).
  split; [exact Hcalls|]. split; [|split].
  - rewrite gator_trace_power_stop_calls. unfold registration_order, wanted.
    by rewrite Hc, Hg.
  - by apply stop_after_start_detaches.
  - by destruct (gator_trace_power_stop_fields
                   (result_state (gator_trace_power_start k s)))
      as (_ & _ & _ & _ & _ & _ & Ht & _).
Qed.

Lemma stop_undoes_start_witness :
  result_calls
    (gator_trace_power_stop
       (result_state (gator_trace_power_start quad_core both_enabled)))
  = [GATOR_UNREGISTER_TRACE_call cpu_frequency;
     GATOR_UNREGISTER_TRACE_call gpu_frequency;
     GATOR_UNREGISTER_TRACE_call cpu_idle].
Proof.
  destruct (stop_undoes_start quad_core both_enabled) as (_ & Hstop & _).
  - reflexivity.
  - reflexivity.
  - exact Hstop.
Defined.

(** X4. Stop decides what to unregister from the flags as they are when it
    runs, not from what start registered: when a frequency flag that was
    nonzero at start has been cleared since, stop leaves the probe of that
    class attached, and the tracepoint still reaches it after stop. *)
Theorem stop_misses_probe_of_cleared_flag (tgt : target) (k : environment)
    (s : state) :
  probes s = ∅ ->
  result_value (gator_trace_power_start k s) = 0 ->
  let s1 := result_state (gator_trace_power_start k s) in
  (idx (power_cpu_enabled s) POWER_CPU_FREQ ≠ 0 ->
   let s2 := result_state
               (gator_trace_power_stop (set_power_cpu_enabled POWER_CPU_FREQ 0 s1)) in
   cpu_frequency ∈ probes s2
   /\ forall frequency cpu,
        is_Some (step tgt k (trace_cpu_frequency frequency cpu) s2))
  /\ (power_gpu_enabled s ≠ 0 ->
      let s2 := result_state (gator_trace_power_stop (set_power_gpu_enabled 0 s1)) in
      gpu_frequency ∈ probes s2
      /\ forall frequency,
           is_Some (step tgt k (trace_gpu_frequency frequency) s2)).
Proof.
  intros Hempty Hok s1. subst s1.
  destruct (start_success_shape k s Hok) as (_ & _ & _ & Hc & Hg & _ & _ & Hp & _).
  split.
  - intros Hen s2. subst s2. apply nonzero_true in Hen.
    assert (Hin : cpu_frequency
                  ∈ probes (result_state
                              (gator_trace_power_stop
                                 (set_power_cpu_enabled POWER_CPU_FREQ 0
                                    (result_state (gator_trace_power_start k s)))))).
    { destruct (gator_trace_power_stop_fields
                  (set_power_cpu_enabled POWER_CPU_FREQ 0
                     (result_state (gator_trace_power_start k s))))
        as (_ & _ & _ & _ & _ & _ & _ & _ & Hq).
      rewrite Hq. cbn [probes set_power_cpu_enabled]. rewrite Hp, Hempty.
      unfold registration_order, wanted. cbn [power_cpu_enabled power_gpu_enabled
        set_power_cpu_enabled]. rewrite idx_insert_zero, nonzero_0, Hen, Hg.
      cbn [List.filter].
      destruct (nonzero (power_gpu_enabled s)); cbn; set_solver. }
    split; [exact Hin|]. intros frequency cpu. unfold step.
    rewrite decide_True by exact Hin. by eexists.
  - intros Hen s2. subst s2. apply nonzero_true in Hen.
    assert (Hin : gpu_frequency
                  ∈ probes (result_state
                              (gator_trace_power_stop
                                 (set_power_gpu_enabled 0
                                    (result_state (gator_trace_power_start k s)))))).
    { destruct (gator_trace_power_stop_fields
                  (set_power_gpu_enabled 0
                     (result_state (gator_trace_power_start k s))))
        as (_ & _ & _ & _ & _ & _ & _ & _ & Hq).
      rewrite Hq. cbn [probes set_power_gpu_enabled]. rewrite Hp, Hempty.
      unfold registration_order, wanted. cbn [power_cpu_enabled power_gpu_enabled
        set_power_gpu_enabled]. rewrite nonzero_0, Hen, Hc.
      cbn [List.filter].
      destruct (nonzero (idx (power_cpu_enabled s) POWER_CPU_FREQ)); cbn; set_solver. }
    split; [exact Hin|]. intros frequency. unfold step.
    rewrite decide_True by exact Hin. by eexists.
Qed.

Lemma stop_misses_probe_of_cleared_flag_witness :
  cpu_frequency
  ∈ probes
      (result_state
         (gator_trace_power_stop
            (set_power_cpu_enabled POWER_CPU_FREQ 0
               (result_state (gator_trace_power_start quad_core both_enabled))))).
Proof.
  destruct (stop_misses_probe_of_cleared_flag (not_arm LP64) quad_core both_enabled)
    as (Hcpu & _).
  - reflexivity.
  - reflexivity.
  - destruct Hcpu as (Hin & _).
    + vm_compute. discriminate.
    + exact Hin.
Defined.

(** X5. A successful start wipes the idle history of the present CPUs: for a
    CPU whose physical identity is present, what a sequence of idle
    observations forwards after start does not depend on the state start was
    called in, so nothing observed in an earlier session shows. *)
Theorem start_forgets_idle_history (tgt : target) (k k' : environment)
    (s1 s2 : state) (cpu : Z) (obs : list Z) :
  result_value (gator_trace_power_start k s1) = 0 ->
  result_value (gator_trace_power_start k s2) = 0 ->
  lcpu_to_pcpu k' cpu ∈ cpu_present_mask k ->
  result_calls
    (observe_all tgt k' obs cpu (result_state (gator_trace_power_start k s1)))
  = result_calls
      (observe_all tgt k' obs cpu (result_state (gator_trace_power_start k s2))).
Proof.
  intros H1 H2 Hin. rewrite !observe_all_calls.
  by rewrite (start_success_sentinel k s1 _ H1 Hin),
    (start_success_sentinel k s2 _ H2 Hin).
Qed.

Lemma start_forgets_idle_history_witness :
  result_calls
    (observe_all (arm false) quad_core [3; 3; 1] 2
       (result_state (gator_trace_power_start quad_core both_enabled)))
  = result_calls
      (observe_all (arm false) quad_core [3; 3; 1] 2
         (result_state
            (gator_trace_power_start quad_core
               (result_state
                  (observe_all (arm false) quad_core [3] 2
                     (result_state (gator_trace_power_start quad_core both_enabled))))))).
Proof.
  apply start_forgets_idle_history.
  - reflexivity.
  - reflexivity.
  - apply (bool_decide_unpack _). vm_compute. exact I.
Defined.

(** X6. Start resets the idle store under the identities of the present mask
    only: the state stored under an identity that is not in the present mask
    goes through a successful start unchanged, so an observation equal to it
    is still dropped after start. *)
Theorem start_keeps_idle_state_of_absent_cpu (tgt : target) (k k' : environment)
    (s : state) (cpu : Z) :
  result_value (gator_trace_power_start k s) = 0 ->
  lcpu_to_pcpu k' cpu ∉ cpu_present_mask k ->
  let s' := result_state (gator_trace_power_start k s) in
  let p := lcpu_to_pcpu k' cpu in
  per_cpu_idle_prev_state s' p = per_cpu_idle_prev_state s p
  /\ result_calls (probe_cpu_idle tgt k' (per_cpu_idle_prev_state s p) cpu s') = [].
Proof.
  intros Hok Hout s' p. subst s' p.
  destruct (start_success_shape k s Hok) as (Hidle & _).
  assert (Hsame : per_cpu_idle_prev_state
                    (result_state (gator_trace_power_start k s)) (lcpu_to_pcpu k' cpu)
                  = per_cpu_idle_prev_state s (lcpu_to_pcpu k' cpu)).
  { unfold per_cpu_idle_prev_state at 1. rewrite Hidle.
    fold (per_cpu_idle_prev_state
            (fold_left (fun s cpu => set_idle_prev_state cpu 0 s)
               (cpu_present_mask k) s) (lcpu_to_pcpu k' cpu)).
    rewrite reset_idle_prev_state. by rewrite decide_False. }
  split; [exact Hsame|].
  rewrite probe_cpu_idle_unfold. by rewrite decide_True.
Qed.

Lemma start_keeps_idle_state_of_absent_cpu_witness :
  per_cpu_idle_prev_state
    (result_state
       (gator_trace_power_start (with_present [0; 1] quad_core)
          (result_state (probe_cpu_idle (arm false) quad_core 2 0 both_enabled))))
    3 = 2.
Proof.
  destruct (start_keeps_idle_state_of_absent_cpu (arm false)
              (with_present [0; 1] quad_core) quad_core
              (result_state (probe_cpu_idle (arm false) quad_core 2 0 both_enabled)) 0)
    as (Hkept & _).
  - reflexivity.
  - apply (bool_decide_unpack _). vm_compute. exact I.
  - exact Hkept.
Defined.

(** ** More on the idle-state tracker *)

(** X7. Delivering the same idle observation for the same CPU a second time
    is a no-op on every target: nothing is forwarded and the state is left
    exactly as the first delivery left it. *)
Theorem idle_probe_repeat_is_noop (tgt : target) (k : environment)
    (st cpu : Z) (s : state) :
  let s1 := result_state (probe_cpu_idle tgt k st cpu s) in
  probe_cpu_idle tgt k st cpu s1 = (tt, s1, []).
Proof.
  intros s1. subst s1.
  rewrite (probe_cpu_idle_unfold tgt k st cpu
             (result_state (probe_cpu_idle tgt k st cpu s))).
  rewrite decide_True; [done|]. by rewrite probe_cpu_idle_stored.
Qed.

Lemma set_idle_prev_state_commute (p1 p2 st1 st2 : Z) (s : state) :
  p1 ≠ p2 ->
  set_idle_prev_state p2 st2 (set_idle_prev_state p1 st1 s)
  = set_idle_prev_state p1 st1 (set_idle_prev_state p2 st2 s).
Proof.
  intros Hne. unfold set_idle_prev_state; cbn. f_equal. by apply insert_insert_ne.
Qed.

(** X8. Idle observations for CPUs with different physical identities are
    independent: delivered in either order they leave the same state, and
    each forwards what it would have forwarded alone. *)
Theorem idle_probes_of_distinct_cpus_commute (tgt : target) (k : environment)
    (st1 cpu1 st2 cpu2 : Z) (s : state) :
  lcpu_to_pcpu k cpu1 ≠ lcpu_to_pcpu k cpu2 ->
  let first := probe_cpu_idle tgt k st1 cpu1 in
  let second := probe_cpu_idle tgt k st2 cpu2 in
  result_state (second (result_state (first s)))
  = result_state (first (result_state (second s)))
  /\ result_calls (second (result_state (first s))) = result_calls (second s)
  /\ result_calls (first (result_state (second s))) = result_calls (first s).
Proof.
  intros Hne first second. subst first second.
  assert (H21 : per_cpu_idle_prev_state
                  (result_state (probe_cpu_idle tgt k st1 cpu1 s)) (lcpu_to_pcpu k cpu2)
                = per_cpu_idle_prev_state s (lcpu_to_pcpu k cpu2))
    by (apply probe_cpu_idle_other; congruence).
  assert (H12 : per_cpu_idle_prev_state
                  (result_state (probe_cpu_idle tgt k st2 cpu2 s)) (lcpu_to_pcpu k cpu1)
                = per_cpu_idle_prev_state s (lcpu_to_pcpu k cpu1))
    by (apply probe_cpu_idle_other; congruence).
  rewrite (probe_cpu_idle_unfold tgt k st2 cpu2
             (result_state (probe_cpu_idle tgt k st1 cpu1 s))), H21.
  rewrite (probe_cpu_idle_unfold tgt k st1 cpu1
             (result_state (probe_cpu_idle tgt k st2 cpu2 s))), H12.
  rewrite !(probe_cpu_idle_unfold tgt k _ _ s).
  destruct (decide (st1 = per_cpu_idle_prev_state s (lcpu_to_pcpu k cpu1)));
    destruct (decide (st2 = per_cpu_idle_prev_state s (lcpu_to_pcpu k cpu2)));
    unfold result_state, result_calls; cbn [fst snd]; repeat split; try reflexivity.
  by apply set_idle_prev_state_commute.
Qed.

Lemma idle_probes_of_distinct_cpus_commute_witness :
  result_state
    (probe_cpu_idle (arm false) quad_core 2 1
       (result_state (probe_cpu_idle (arm false) quad_core 1 0 both_enabled)))
  = result_state
      (probe_cpu_idle (arm false) quad_core 1 0
         (result_state (probe_cpu_idle (arm false) quad_core 2 1 both_enabled))).
Proof.
  apply (idle_probes_of_distinct_cpus_commute (arm false) quad_core 1 0 2 1 both_enabled).
  vm_compute. discriminate.
Defined.

Lemma forwarded_states_marshal_idle (p : Z) (l : list Z) :
  forwarded_states (map (marshal_idle p) l) = l.
Proof.
  unfold forwarded_states. induction l as [|x l IH]; [done|].
  cbn. by rewrite IH.
Qed.

Lemma no_repeat_transitions (prev : Z) (obs : list Z) :
  no_repeat prev (transitions prev obs).
Proof.
  revert prev; induction obs as [|st obs IH]; intros prev; cbn [transitions]; [done|].
  case_decide as Heq.
  - subst st. apply IH.
  - split; [done | apply IH].
Qed.

Lemma length_transitions (prev : Z) (obs : list Z) :
  (length (transitions prev obs) <= length obs)%nat.
Proof.
  revert prev; induction obs as [|st obs IH]; intros prev; cbn [transitions]; [done|].
  case_decide; cbn [length]; specialize (IH st); lia.
Qed.

(** X9. Whatever the target and the sequence of observations delivered for
    one CPU, two idle states forwarded in a row are never equal, the first
    one forwarded differs from the state stored before the sequence, and no
    more states are forwarded than were observed. *)
Theorem forwarded_idle_states_never_repeat (tgt : target) (k : environment)
    (obs : list Z) (cpu : Z) (s : state) :
  let out := result_calls (observe_all tgt k obs cpu s) in
  no_repeat (per_cpu_idle_prev_state s (lcpu_to_pcpu k cpu)) (forwarded_states out)
  /\ (length (forwarded_states out) <= length obs)%nat
  /\ Forall (fun c => core_of c = Some (lcpu_to_pcpu k cpu)) out.
Proof.
  intros out. subst out. rewrite observe_all_calls.
  destruct (implements_wfi tgt).
  - rewrite forwarded_states_marshal_idle.
    split; [apply no_repeat_transitions|]. split; [apply length_transitions|].
    apply Forall_forall. intros c Hc. apply list_elem_of_fmap in Hc as (st & -> & _).
    reflexivity.
  - cbn. split; [done|]. split; [lia | constructor].
Qed.

(** ** Hotplug notifications *)

Lemma gator_trace_power_online_shape (tgt : target) (k : environment) (s : state) :
  gator_trace_power_online tgt k s
  = (tt, s,
     if nonzero (idx (power_cpu_enabled s) POWER_CPU_FREQ)
     then [marshal_event_single64 (get_physical_cpu k)
             (idx (power_cpu_key s) POWER_CPU_FREQ)
             (mul_1000L tgt (cpufreq_quick_get k (get_logical_cpu k)))]
     else []).
Proof.
  exec. by destruct (nonzero (idx (power_cpu_enabled s) POWER_CPU_FREQ)).
Qed.

Lemma gator_trace_power_offline_shape (k : environment) (s : state) :
  gator_trace_power_offline k s
  = (tt, s,
     if nonzero (idx (power_cpu_enabled s) POWER_CPU_FREQ)
     then [marshal_event_single (get_physical_cpu k)
             (idx (power_cpu_key s) POWER_CPU_FREQ) 0]
     else []).
Proof.
  exec. by destruct (nonzero (idx (power_cpu_enabled s) POWER_CPU_FREQ)).
Qed.

(** X10. Hotplug notifications never change the state.  A sequence of online
    and offline notifications hands over one sample per notification while
    the CpuFrequency flag is nonzero, each for the current physical CPU
    under the CpuFrequency key, and nothing at all while the flag is 0. *)
Theorem hotplug_notifications_gated (tgt : target) (k : environment)
    (es : list event) (s : state) :
  Forall (fun e => e = call_online \/ e = call_offline) es ->
  exists out,
    run tgt k es s = Some (s, out)
    /\ length out
       = (if nonzero (idx (power_cpu_enabled s) POWER_CPU_FREQ)
          then length es else 0%nat)
    /\ Forall (fun c => core_of c = Some (get_physical_cpu k)
                        /\ key_of c = Some (idx (power_cpu_key s) POWER_CPU_FREQ)) out.
Proof.
  induction 1 as [|e es He _ IH].
  - exists []. cbn. split; [done|]. split; [|constructor].
    destruct (nonzero (idx (power_cpu_enabled s) POWER_CPU_FREQ)); reflexivity.
  - destruct IH as (out & Hrun & Hlen & Hall).
    cbn [run]. destruct He as [-> | ->]; unfold step, finish.
    + rewrite gator_trace_power_online_shape.
      unfold result_state, result_calls; cbn [fst snd]. rewrite Hrun.
      eexists. split; [reflexivity|].
      destruct (nonzero (idx (power_cpu_enabled s) POWER_CPU_FREQ)); cbn.
      * split; [by rewrite Hlen|]. by constructor.
      * by split.
    + rewrite gator_trace_power_offline_shape.
      unfold result_state, result_calls; cbn [fst snd]. rewrite Hrun.
      eexists. split; [reflexivity|].
      destruct (nonzero (idx (power_cpu_enabled s) POWER_CPU_FREQ)); cbn.
      * split; [by rewrite Hlen|]. by constructor.
      * by split.
Qed.

Lemma hotplug_notifications_gated_witness :
  exists out,
    run (not_arm LP64) quad_core [call_offline; call_online] both_enabled
    = Some (both_enabled, out)
    /\ length out = 2%nat.
Proof.
  destruct (hotplug_notifications_gated (not_arm LP64) quad_core
              [call_offline; call_online] both_enabled) as (out & Hrun & Hlen & _).
  - apply Forall_cons; split; [by right|].
    apply Forall_cons; split; [by left | constructor].
  - exists out. split; [exact Hrun | exact Hlen].
Defined.

(** ** The poller between start and stop *)

(** X11. A successful start is always followed by a first poller pass,
    whatever the enabled flags are: after start the work is queued, and when
    the workqueue runs it the marshalling layer gets the samples of all
    present CPUs under the CpuFrequency key and the wake-up timer is armed. *)
Theorem start_then_first_pass (tgt : target) (k : environment) (s : state) :
  result_value (gator_trace_power_start k s) = 0 ->
  exists s',
    run tgt k [call_start; work_runs] s
    = Some (s',
            map registered_ok (List.filter (wanted s) registration_order)
            ++ flat_map (cycle_sample tgt k (idx (power_cpu_key s) POWER_CPU_FREQ))
                 (cpu_present_mask k))
    /\ freq_work s' = false
    /\ freq_wake_up_timer s'
       = Some (wrap_unsigned (long_bits tgt) (jiffies k + msecs_to_jiffies k 500)).
Proof.
  intros Hok.
  destruct (start_success_shape k s Hok) as (_ & Hw & _ & _ & _ & Hck & _ & _ & Hcalls).
  cbn [run]. unfold step at 1, finish. rewrite Hcalls.
  unfold step, finish. rewrite Hw, wq_freq_handler_shape.
  unfold result_state at 1 2, result_calls; cbn [fst snd].
  cbn [power_cpu_key set_freq_work]. rewrite Hck, app_nil_r.
  eexists. split; [reflexivity|]. by split.
Qed.

Lemma start_then_first_pass_witness :
  exists s',
    run (not_arm LP64) quad_core [call_start; work_runs]
      (result_state (gator_trace_power_init quad_core module_load))
    = Some (s',
            [GATOR_REGISTER_TRACE_call cpu_idle 0;
             marshal_event_single64 0 3 1200000000;
             marshal_event_single64 1 3 1200001000;
             marshal_event_single 3 3 0]).
Proof.
  destruct (start_then_first_pass (not_arm LP64) quad_core
              (result_state (gator_trace_power_init quad_core module_load)))
    as (s' & Hrun & _).
  - reflexivity.
  - exists s'. exact Hrun.
Defined.

Lemma start_failure_frame (k : environment) (s : state) :
  result_value (gator_trace_power_start k s) ≠ 0 ->
  let s' := result_state (gator_trace_power_start k s) in
  idle_prev_state s' = idle_prev_state s
  /\ power_cpu_enabled s' = power_cpu_enabled s
  /\ power_gpu_enabled s' = power_gpu_enabled s
  /\ freq_work s' = freq_work s
  /\ freq_wake_up_timer s' = freq_wake_up_timer s.
Proof.
  exec.
  destruct (nonzero (idx (power_cpu_enabled s) POWER_CPU_FREQ)) eqn:Ec;
  destruct (nonzero (power_gpu_enabled s)) eqn:Eg;
  destruct (nonzero (register_trace k cpu_frequency)) eqn:E1;
  destruct (nonzero (register_trace k gpu_frequency)) eqn:E2;
  destruct (nonzero (register_trace k cpu_idle)) eqn:E3;
  evaluate; try done; intros _; by repeat split.
Qed.

Lemma gator_trace_power_init_poller (k : environment) (s : state) :
  freq_work (result_state (gator_trace_power_init k s)) = freq_work s
  /\ freq_wake_up_timer (result_state (gator_trace_power_init k s))
     = freq_wake_up_timer s
  /\ probes (result_state (gator_trace_power_init k s)) = probes s.
Proof. exec. cbn. by repeat split. Qed.




(** ** What the events leave alone *)

(** X14. The keys are written by init and by nothing else: along any
    schedule of events that contains no init, both keys keep the value they
    had at the beginning. *)
Theorem keys_change_only_at_init (tgt : target) (k : environment)
    (es : list event) (s s' : state) (out : list call) :
  call_init ∉ es ->
  run tgt k es s = Some (s', out) ->
  power_cpu_key s' = power_cpu_key s /\ power_gpu_key s' = power_gpu_key s.
Proof.
  revert s out; induction es as [|e es IH]; intros s out Hnoinit Hrun;
    cbn [run] in Hrun.
  - by injection Hrun as <- _.
  - destruct (step tgt k e s) as [[s1 o1]|] eqn:Hstep; [|done].
    destruct (run tgt k es s1) as [[s2 o2]|] eqn:Hrest; [|done].
    injection Hrun as <- _.
    destruct (step_keeps_keys tgt k e s s1 o1) as [<- <-]; [set_solver | done |].
    apply (IH s1 o2); [set_solver | done].
Qed.

Lemma keys_change_only_at_init_witness :
  exists s' out,
    run (not_arm LP64) quad_core
      [call_start; work_runs; trace_gpu_frequency 600000; call_stop; call_start]
      both_enabled = Some (s', out)
    /\ power_cpu_key s' = power_cpu_key both_enabled
    /\ power_gpu_key s' = power_gpu_key both_enabled.
Proof.
  eexists _, _. split; [vm_compute; reflexivity|].
  eapply (keys_change_only_at_init (not_arm LP64) quad_core
            [call_start; work_runs; trace_gpu_frequency 600000; call_stop; call_start]).
  - apply (bool_decide_unpack _). vm_compute. exact I.
  - vm_compute. reflexivity.
Defined.

Lemma tagged_cycle (tgt : target) (k : environment) (s : state) (l : list Z) :
  Forall (tagged s)
    (flat_map (cycle_sample tgt k (idx (power_cpu_key s) POWER_CPU_FREQ)) l).
Proof.
  induction l as [|c l IH]; cbn [flat_map]; [constructor|].
  apply Forall_app. split; [|exact IH]. unfold cycle_sample.
  destruct (cpu_online k c); [destruct (cpufreq_cpu_get k c)|];
    try (constructor; [by left | constructor]); constructor.
Qed.

Lemma tagged_no_key (s : state) (out : list call) :
  Forall (fun c => key_of c = None) out -> Forall (tagged s) out.
Proof.
  intros H. eapply Forall_impl; [exact H|].
  intros c Hc. unfold tagged. by rewrite Hc.
Qed.

Lemma start_calls_no_key (k : environment) (s : state) :
  Forall (fun c => key_of c = None) (result_calls (gator_trace_power_start k s)).
Proof.
  exec.
  destruct (nonzero (idx (power_cpu_enabled s) POWER_CPU_FREQ)) eqn:Ec;
    destruct (nonzero (power_gpu_enabled s)) eqn:Eg;
    destruct (nonzero (register_trace k cpu_frequency)) eqn:E1;
    destruct (nonzero (register_trace k gpu_frequency)) eqn:E2;
    destruct (nonzero (register_trace k cpu_idle)) eqn:E3;
    evaluate; repeat constructor.
Qed.

Lemma step_tagged (tgt : target) (k : environment) (e : event)
    (s s' : state) (out : list call) :
  step tgt k e s = Some (s', out) -> Forall (tagged s) out.
Proof.
  intros Hstep. destruct e; unfold step, finish in Hstep.
  - case_decide; [|done]. injection Hstep as _ <-.
    constructor; [by left | constructor].
  - case_decide; [|done]. injection Hstep as _ <-.
    constructor; [by right | constructor].
  - case_decide; [|done]. rewrite probe_cpu_idle_unfold in Hstep.
    case_decide; injection Hstep as _ <-; [constructor|].
    destruct (implements_wfi tgt); [constructor; [exact I | constructor] | constructor].
  - destruct (freq_wake_up_timer s); [|done]. injection Hstep as _ <-. constructor.
  - destruct (freq_work s); [|done]. rewrite wq_freq_handler_shape in Hstep.
    injection Hstep as _ <-. apply (tagged_cycle tgt k s).
  - injection Hstep as _ <-. constructor.
  - injection Hstep as _ <-. constructor.
  - pose proof (gator_trace_power_init_fields k s) as (_ & _ & _ & _ & _ & _ & Hcalls).
    assert (out = result_calls (gator_trace_power_init k s)) as -> by congruence.
    rewrite Hcalls. constructor.
  - assert (out = result_calls (gator_trace_power_start k s)) as -> by congruence.
    apply tagged_no_key, start_calls_no_key.
  - assert (out = result_calls (gator_trace_power_stop s)) as -> by congruence.
    rewrite gator_trace_power_stop_calls. apply tagged_no_key.
    apply Forall_forall. intros c Hc.
    by apply list_elem_of_fmap in Hc as (t & -> & _).
  - rewrite gator_trace_power_online_shape in Hstep. injection Hstep as _ <-.
    destruct (nonzero (idx (power_cpu_enabled s) POWER_CPU_FREQ));
      [constructor; [by left | constructor] | constructor].
  - rewrite gator_trace_power_offline_shape in Hstep. injection Hstep as _ <-.
    destruct (nonzero (idx (power_cpu_enabled s) POWER_CPU_FREQ));
      [constructor; [by left | constructor] | constructor].
Qed.

(** X15. Every frequency sample handed to the marshalling layer is tagged
    with the CpuFrequency key or the GpuFrequency key: along any schedule
    without an init, whichever function emits a sample (either frequency
    probe, the poller, a hotplug notification), its key is one of the two
    keys the state held at the beginning. *)
Theorem samples_carry_current_keys (tgt : target) (k : environment)
    (es : list event) (s s' : state) (out : list call) :
  call_init ∉ es ->
  run tgt k es s = Some (s', out) ->
  Forall (fun c => forall key, key_of c = Some key ->
                     key = idx (power_cpu_key s) POWER_CPU_FREQ
                     \/ key = power_gpu_key s) out.
Proof.
  intros Hnoinit Hrun.
  assert (Htag : Forall (tagged s) out).
  { revert s out Hnoinit Hrun; induction es as [|e es IH]; intros s out Hnoinit Hrun;
      cbn [run] in Hrun.
    - injection Hrun as _ <-. constructor.
    - destruct (step tgt k e s) as [[s1 o1]|] eqn:Hstep; [|done].
      destruct (run tgt k es s1) as [[s2 o2]|] eqn:Hrest; [|done].
      injection Hrun as <- <-. apply Forall_app. split.
      + exact (step_tagged _ _ _ _ _ _ Hstep).
      + destruct (step_keeps_keys tgt k e s s1 o1) as [Hck Hgk]; [set_solver | done |].
        assert (Htag1 : Forall (tagged s1) o2)
          by (apply (IH s1 o2); [set_solver | exact Hrest]).
        eapply Forall_impl; [exact Htag1|]. intros c. unfold tagged.
        by rewrite Hck, Hgk. }
  eapply Forall_impl; [exact Htag|]. intros c Hc key Hkey. unfold tagged in Hc.
  by rewrite Hkey in Hc.
Qed.

Lemma samples_carry_current_keys_witness :
  exists s' out,
    run (not_arm LP64) quad_core
      [call_start; work_runs; trace_gpu_frequency 600000; call_offline]
      both_enabled = Some (s', out)
    /\ Forall (fun c => forall key, key_of c = Some key -> key = 3 \/ key = 0) out.
Proof.
  eexists _, _. split; [vm_compute; reflexivity|].
  eapply (samples_carry_current_keys (not_arm LP64) quad_core
            [call_start; work_runs; trace_gpu_frequency 600000; call_offline]
            both_enabled).
  - apply (bool_decide_unpack _). vm_compute. exact I.
  - vm_compute. reflexivity.
Defined.

(** X16. Only start and stop change the set of attached probes; the
    CpuFrequency flag is changed by its gatorfs file, by init and by stop
    only; the GpuFrequency flag is changed by its gatorfs file alone.  In
    particular start never changes a flag, whether it succeeds or fails. *)
Theorem flags_and_probes_frame (tgt : target) (k : environment) (e : event)
    (s s' : state) (out : list call) :
  step tgt k e s = Some (s', out) ->
  (e ≠ call_start -> e ≠ call_stop -> probes s' = probes s)
  /\ ((forall v, e ≠ write_power_cpu_enabled v) -> e ≠ call_init -> e ≠ call_stop ->
      power_cpu_enabled s' = power_cpu_enabled s)
  /\ ((forall v, e ≠ write_power_gpu_enabled v) ->
      power_gpu_enabled s' = power_gpu_enabled s).
Proof.
  intros Hstep. destruct e; unfold step, finish in Hstep.
  - case_decide; [|done]. injection Hstep as <- _.
    by rewrite probe_cpu_frequency_shape.
  - case_decide; [|done]. injection Hstep as <- _.
    by rewrite probe_gpu_frequency_shape.
  - case_decide; [|done]. injection Hstep as <- _.
    rewrite probe_cpu_idle_unfold. by case_decide.
  - destruct (freq_wake_up_timer s); [|done]. by injection Hstep as <- _.
  - destruct (freq_work s); [|done]. rewrite wq_freq_handler_shape in Hstep.
    by injection Hstep as <- _.
  - injection Hstep as <- _. repeat split; try done. intros H. by destruct (H v).
  - injection Hstep as <- _. repeat split; try done. intros H. by destruct (H v).
  - injection Hstep as <- _.
    destruct (gator_trace_power_init_fields k s) as (_ & _ & Hg & _).
    destruct (gator_trace_power_init_poller k s) as (_ & _ & Hp).
    by repeat split.
  - injection Hstep as <- _.
    destruct (decide (result_value (gator_trace_power_start k s) = 0)) as [Hok|Hko].
    + destruct (start_success_shape k s Hok) as (_ & _ & _ & Hc & Hg & _).
      by repeat split.
    + destruct (start_failure_frame k s Hko) as (_ & Hc & Hg & _).
      by repeat split.
  - injection Hstep as <- _.
    destruct (gator_trace_power_stop_fields s) as (_ & Hg & _).
    by repeat split.
  - injection Hstep as <- _. by rewrite gator_trace_power_online_shape.
  - injection Hstep as <- _. by rewrite gator_trace_power_offline_shape.
Qed.

Lemma flags_and_probes_frame_witness :
  power_cpu_enabled (result_state (gator_trace_power_start quad_core both_enabled))
  = power_cpu_enabled both_enabled
  /\ power_gpu_enabled (result_state (gator_trace_power_start quad_core both_enabled))
     = power_gpu_enabled both_enabled.
Proof.
  destruct (flags_and_probes_frame (not_arm LP64) quad_core call_start both_enabled
              (result_state (gator_trace_power_start quad_core both_enabled))
              (result_calls (gator_trace_power_start quad_core both_enabled)))
    as (_ & Hc & Hg).
  - reflexivity.
  - split; [apply Hc | apply Hg]; discriminate.
Defined.

Lemma gator_trace_power_stop_state (s : state) :
  result_state (gator_trace_power_stop s)
  = set_power_cpu_enabled POWER_CPU_FREQ 0
      (set_freq_wake_up_timer None
         (set_probes
            (probes s ∖ list_to_set (List.filter (wanted s) registration_order)) s)).
Proof.
  destruct s as [idle cen ckey gen gkey cores work timer ps drawn].
  unfold registration_order. exec.
  destruct (nonzero (idx cen POWER_CPU_FREQ)) eqn:Ec;
    destruct (nonzero gen) eqn:Eg;
    unfold wanted; evaluate;
    unfold set_power_cpu_enabled, set_freq_wake_up_timer, set_probes; cbn; f_equal;
    unfold detach; set_solver.
Qed.

(** X17. Stop is idempotent on the state: a second stop right after the
    first leaves the state as the first left it.  The second stop no longer
    asks for the cpu_frequency probe, whose flag the first stop cleared, but
    it asks again for the gpu_frequency probe when the GpuFrequency flag is
    nonzero, and for the idle probe. *)
Theorem stop_twice_is_stop_once (s : state) :
  let s1 := result_state (gator_trace_power_stop s) in
  result_state (gator_trace_power_stop s1) = s1
  /\ result_calls (gator_trace_power_stop s1)
     = (if nonzero (power_gpu_enabled s)
        then [GATOR_UNREGISTER_TRACE_call gpu_frequency] else [])
       ++ [GATOR_UNREGISTER_TRACE_call cpu_idle].
Proof.
  intros s1. subst s1. split.
  - rewrite (gator_trace_power_stop_state (result_state (gator_trace_power_stop s))).
    rewrite (gator_trace_power_stop_state s).
    destruct s as [idle cen ckey gen gkey cores work timer ps drawn].
    unfold registration_order, wanted, set_power_cpu_enabled, set_freq_wake_up_timer,
      set_probes; cbn.
    rewrite idx_insert_zero, nonzero_0. f_equal.
    + by rewrite list_insert_insert_eq.
    + destruct (nonzero (idx cen POWER_CPU_FREQ)); destruct (nonzero gen); cbn;
        set_solver.
  - rewrite gator_trace_power_stop_calls.
    destruct (gator_trace_power_stop_fields s) as (Hc & Hg & _).
    unfold registration_order, wanted. rewrite Hc, Hg, idx_insert_zero, nonzero_0.
    cbn [List.filter]. by destruct (nonzero (power_gpu_enabled s)).
Qed.

(** ** The gatorfs files *)

Lemma found_nonzero_freq_spec (k : environment) :
  found_nonzero_freq k = true
  <-> exists cpu, cpu ∈ cpu_present_mask k /\ cpu_online k cpu = true
                  /\ 0 < cpufreq_quick_get k cpu.
Proof.
  unfold found_nonzero_freq, cpu_online_mask. rewrite existsb_exists. split.
  - intros (cpu & Hin & Hpos). apply filter_In in Hin as [Hin Hon].
    exists cpu. rewrite list_elem_of_In. repeat split; [done | done | lia].
  - intros (cpu & Hin & Hon & Hpos). exists cpu.
    rewrite filter_In, <- list_elem_of_In. repeat split; [done | done | lia].
Qed.

(** X18. [gator_trace_power_create_files] returns 0 exactly when gatorfs
    creates every directory it is asked for, and -1 otherwise.  The CPU
    directory is asked for only when some online CPU reports a nonzero
    frequency.  Nothing is undone on failure: when the CPU directory cannot
    be created the GPU directory is not even asked for, and when the GPU
    directory cannot be created the CPU files created before it stay. *)
Theorem create_files_outcome (k : environment) (mkdir : gatorfs_dir -> bool) :
  let r := gator_trace_power_create_files k mkdir in
  (fst r = 0
   <-> (found_nonzero_freq k = true -> mkdir Linux_power_cpu_freq = true)
       /\ mkdir Linux_power_gpu_freq = true)
  /\ (fst r = 0 \/ fst r = -1)
  /\ ((exists created, gatorfs_mkdir Linux_power_cpu_freq created ∈ snd r)
      <-> exists cpu, cpu ∈ cpu_present_mask k /\ cpu_online k cpu = true
                      /\ 0 < cpufreq_quick_get k cpu)
  /\ (found_nonzero_freq k = true -> mkdir Linux_power_cpu_freq = false ->
      r = (-1, [gatorfs_mkdir Linux_power_cpu_freq false]))
  /\ (found_nonzero_freq k = true -> mkdir Linux_power_cpu_freq = true ->
      mkdir Linux_power_gpu_freq = false ->
      r = (-1, [gatorfs_mkdir Linux_power_cpu_freq true;
                gatorfs_create_ulong Linux_power_cpu_freq file_enabled
                  (var_power_cpu_enabled POWER_CPU_FREQ);
                gatorfs_create_ro_ulong Linux_power_cpu_freq file_key
                  (var_power_cpu_key POWER_CPU_FREQ);
                gatorfs_mkdir Linux_power_gpu_freq false])).
Proof.
  intros r. subst r. rewrite <- found_nonzero_freq_spec.
  unfold gator_trace_power_create_files, create_gpu_files.
  destruct (found_nonzero_freq k); destruct (mkdir Linux_power_cpu_freq);
    destruct (mkdir Linux_power_gpu_freq); cbn [fst snd app].
  all: split; [intuition congruence|].
  all: split; [(by left) || (by right)|].
  all: split;
    [split; [intros [created H]; first [done | set_solver]
            | intros H; first [discriminate
                              | exists true; set_solver
                              | exists false; set_solver]]|].
  all: split; intros; first [discriminate | reflexivity].
Qed.

Lemma create_files_outcome_witness :
  gator_trace_power_create_files quad_core
    (fun dir => bool_decide (dir = Linux_power_cpu_freq))
  = (-1, [gatorfs_mkdir Linux_power_cpu_freq true;
          gatorfs_create_ulong Linux_power_cpu_freq file_enabled
            (var_power_cpu_enabled POWER_CPU_FREQ);
          gatorfs_create_ro_ulong Linux_power_cpu_freq file_key
            (var_power_cpu_key POWER_CPU_FREQ);
          gatorfs_mkdir Linux_power_gpu_freq false]).
Proof.
  destruct (create_files_outcome quad_core
              (fun dir => bool_decide (dir = Linux_power_cpu_freq)))
    as (_ & _ & _ & _ & Hpartial).
  apply Hpartial; reflexivity.
Defined.

(** X19. The files that [gator_trace_power_create_files] creates give write
    access to the enabled flags only: no outcome exposes a key through a
    writable file.  When it returns 0 the GpuFrequency flag is writable and
    its key readable, and the CpuFrequency flag and key are exposed exactly
    when some online CPU reported a nonzero frequency. *)
Theorem create_files_access (k : environment) (mkdir : gatorfs_dir -> bool) :
  let r := gator_trace_power_create_files k mkdir in
  (forall i, ~ writable (var_power_cpu_key i) (snd r))
  /\ ~ writable var_power_gpu_key (snd r)
  /\ (fst r = 0 ->
      writable var_power_gpu_enabled (snd r)
      /\ readable_only var_power_gpu_key (snd r)
      /\ (writable (var_power_cpu_enabled POWER_CPU_FREQ) (snd r)
          <-> found_nonzero_freq k = true)
      /\ (readable_only (var_power_cpu_key POWER_CPU_FREQ) (snd r)
          <-> found_nonzero_freq k = true)).
Proof.
  intros r. subst r.
  unfold gator_trace_power_create_files, create_gpu_files, readable_only, writable.
  destruct (found_nonzero_freq k); destruct (mkdir Linux_power_cpu_freq);
    destruct (mkdir Linux_power_gpu_freq); cbn [fst snd app].
  all: split; [intros i (dir & name & H); set_solver|].
  all: split; [intros (dir & name & H); set_solver|].
  all: intros Hret; try discriminate.
  all: split;
    [exists Linux_power_gpu_freq, file_enabled;
     apply (bool_decide_unpack _); vm_compute; exact I|].
  all: split;
    [split; [exists Linux_power_gpu_freq, file_key;
             apply (bool_decide_unpack _); vm_compute; exact I
            | intros (dir & name & H); set_solver]|].
  all: split.
  all: split;
    [ first [ intros _; reflexivity
            | intros (dir & name & H); set_solver
            | intros ((dir & name & H) & _); set_solver ]
    | intros Hb; try discriminate ].
  - exists Linux_power_cpu_freq, file_enabled.
    apply (bool_decide_unpack _). vm_compute. exact I.
  - split; [|intros (dir & name & H); set_solver].
    exists Linux_power_cpu_freq, file_key.
    apply (bool_decide_unpack _). vm_compute. exact I.
Qed.

Lemma create_files_access_witness :
  writable var_power_gpu_enabled
    (snd (gator_trace_power_create_files quad_core (fun _ => true)))
  /\ writable (var_power_cpu_enabled POWER_CPU_FREQ)
       (snd (gator_trace_power_create_files quad_core (fun _ => true))).
Proof.
  destruct (create_files_access quad_core (fun _ => true)) as (_ & _ & Hok).
  destruct Hok as (Hgpu & _ & Hcpu & _); [reflexivity|].
  split; [exact Hgpu | by apply Hcpu].
Defined.

(** ** Scaling *)

(** X20. [frequency * 1000L] is the exact frequency in Hz exactly when the
    product fits the width of [long]: always with a 64-bit [long], and with a
    32-bit [long] exactly for frequencies up to 4294967; past that bound the
    value handed over is the product reduced modulo 2^32. *)
Theorem scaling_exact_iff_fits (tgt : target) (u : Z) :
  0 <= u <= UINT_MAX ->
  (mul_1000L tgt u = u * 1000 <-> u * 1000 < 2 ^ long_bits tgt)
  /\ (long_bits tgt = 64 -> mul_1000L tgt u = u * 1000)
  /\ (long_bits tgt = 32 ->
      mul_1000L tgt u = (u * 1000) mod 2 ^ 32
      /\ 0 <= mul_1000L tgt u < 2 ^ 32
      /\ (mul_1000L tgt u = u * 1000 <-> u <= 4294967)).
Proof.
  intros Hu.
  assert (H32 : long_bits tgt = 32 ->
                mul_1000L tgt u = (u * 1000) mod 2 ^ 32
                /\ 0 <= mul_1000L tgt u < 2 ^ 32
                /\ (mul_1000L tgt u = u * 1000 <-> u * 1000 < 2 ^ 32)).
  { intros Hb. rewrite (mul_1000L_long32 tgt u Hb Hu).
    pose proof (Z.mod_pos_bound (u * 1000) (2 ^ 32) ltac:(lia)) as Hm.
    split; [done|]. split; [done|]. split.
    - intros Heq. lia.
    - intros Hfit. apply Z.mod_small. lia. }
  split; [|split].
  - destruct tgt as [b|[|]].
    + by destruct (H32 eq_refl) as (_ & _ & ?).
    + by destruct (H32 eq_refl) as (_ & _ & ?).
    + rewrite mul_1000L_long64 by done. cbn [long_bits]. unfold UINT_MAX in Hu.
      split; [intros _; lia | done].
  - destruct tgt as [b|[|]]; cbn [long_bits]; try discriminate.
    intros _. by apply mul_1000L_long64.
  - intros Hb. destruct (H32 Hb) as (Hm & Hr & Hiff).
    split; [done|]. split; [done|]. rewrite Hiff. lia.
Qed.

Lemma scaling_exact_iff_fits_witness :
  mul_1000L (arm false) 4294967 = 4294967000
  /\ mul_1000L (arm false) 4294968 <> 4294968 * 1000.
Proof.
  destruct (scaling_exact_iff_fits (arm false) 4294967) as (_ & _ & H1);
    [unfold UINT_MAX; lia|].
  destruct (scaling_exact_iff_fits (arm false) 4294968) as (_ & _ & H2);
    [unfold UINT_MAX; lia|].
  destruct (H1 eq_refl) as (_ & _ & Ha). destruct (H2 eq_refl) as (_ & _ & Hb).
  split.
  - apply Ha. lia.
  - intros Heq. apply Hb in Heq. lia.
Defined.
